(** * Event Business Ad Optimizer: the projection engine

    A shallow embedding of the calculation functions of [src/app.py], of
    its scenario store and of the [try] block that runs the calculations,
    and of the older calculations kept in [src/streamlit_app.py] and
    [src/test_thresholds.py], followed by the properties the specification
    states about them.

    Numbers.  The Python code computes on [int] and [float] values.  For
    the general laws both are embedded into the exact rationals [Q]: every
    formula is kept operator for operator, in the order Python evaluates
    it, and [float('inf')] is a constructor of its own.  Rounding of IEEE
    doubles is outside that reading; module [Float64] repeats the functions
    on binary64 numbers, where concrete inputs can be evaluated as Python
    evaluates them.

    Exceptions.  A Python function that may [raise] returns a [result];
    true division goes through [pydiv], which raises [ZeroDivisionError]
    on a zero divisor as Python does, so that "this division is guarded"
    is a theorem and not an artefact of [Qdiv].

    Objects.  A dict that is written to and stored is a reference into a
    heap of dicts (modules [Scenarios] and [Objects]).

    Names.  The statements of the script read and bind module-level
    names; a read of an unbound name is a [NameError] ([try_block]). *)

From Stdlib Require Import QArith Qminmax Qround Lqa PrimFloat Sorted.
From stdpp Require Import gmap strings pretty.

Set Warnings "-inexact-float".

Local Open Scope string_scope.
Local Open Scope list_scope.
Local Open Scope Q_scope.

(** ** Python values and exceptions *)

(** The exceptions the engine can raise. *)
Inductive exn : Type :=
  | ValueError (msg : string)
  | ZeroDivisionError.

(** Outcome of a call: a returned value or a raised exception. *)
Inductive result (A : Type) : Type :=
  | Ok (a : A)
  | Raise (e : exn).
Arguments Ok {A} a.
Arguments Raise {A} e.

Definition bind {A B : Type} (r : result A) (k : A -> result B) : result B :=
  match r with
  | Ok a => k a
  | Raise e => Raise e
  end.

Notation "'let*' x ':=' r 'in' k" := (bind r (fun x => k))
  (at level 10, x name, r at level 100, k at level 200).

(** A float that may be the sentinel [float('inf')]. *)
Inductive pyfloat : Type :=
  | Fin (q : Q)
  | Inf.

(** [x < y] on numbers, as a boolean. *)
Definition Qlt_bool (x y : Q) : bool := negb (Qle_bool y x).

(** Python's true division [x / y]. *)
Definition pydiv (x y : Q) : result Q :=
  if Qeq_bool y 0 then Raise ZeroDivisionError else Ok (x / y).

(** A list comprehension over calls that may raise: the results in order,
    or the first exception. *)
Fixpoint map_result {A B : Type} (f : A -> result B) (l : list A)
    : result (list B) :=
  match l with
  | [] => Ok []
  | x :: rest =>
      let* y := f x in
      let* ys := map_result f rest in
      Ok (y :: ys)
  end.

(** ** The calculation functions of [app.py] *)

(** [calculate_avg_ticket_price] (app.py 63-91). *)
Definition calculate_avg_ticket_price
    (ticket_price_pre ticket_price_post sales_mix_pre : Q) : result Q :=
  if negb (Qle_bool 0 sales_mix_pre && Qle_bool sales_mix_pre 100) then
    Raise (ValueError "Pre-show sales mix must be between 0 and 100")
  else if Qlt_bool ticket_price_pre 0 || Qlt_bool ticket_price_post 0 then
    Raise (ValueError "Ticket prices cannot be negative")
  else
    let sales_mix_post := 100 - sales_mix_pre in
    let* a := pydiv (ticket_price_pre * sales_mix_pre) 100 in
    let* b := pydiv (ticket_price_post * sales_mix_post) 100 in
    Ok (a + b).

(** [calculate_total_fixed_costs] (app.py 93-113). *)
Definition calculate_total_fixed_costs (fixed_costs events_per_month : Q)
    : result Q :=
  if Qlt_bool fixed_costs 0 then
    Raise (ValueError "Fixed costs cannot be negative")
  else if Qlt_bool events_per_month 0 then
    Raise (ValueError "Events per month cannot be negative")
  else
    Ok (fixed_costs * events_per_month).

(** [calculate_projected_revenue] (app.py 115-146). *)
Definition calculate_projected_revenue
    (avg_ticket_price venue_capacity attendance_percentage events_per_month : Q)
    : result Q :=
  if negb (Qle_bool 0 attendance_percentage
           && Qle_bool attendance_percentage 100) then
    Raise (ValueError "Attendance percentage must be between 0 and 100")
  else if Qlt_bool venue_capacity 0 then
    Raise (ValueError "Venue capacity cannot be negative")
  else if Qlt_bool events_per_month 0 then
    Raise (ValueError "Events per month cannot be negative")
  else
    let* share := pydiv attendance_percentage 100 in
    let revenue_per_event := avg_ticket_price * venue_capacity * share in
    Ok (revenue_per_event * events_per_month).

(** [calculate_projected_profit] (app.py 148-170). *)
Definition calculate_projected_profit
    (projected_revenue total_fixed_costs event_cost events_per_month
     ad_spend : Q)
    : result Q :=
  if existsb (fun cost => Qlt_bool cost 0)
             [event_cost; events_per_month; ad_spend] then
    Raise (ValueError "Cost values cannot be negative")
  else
    Ok (projected_revenue - total_fixed_costs
        - (event_cost * events_per_month) - ad_spend).

(** [calculate_breakeven_roas] (app.py 172-192). *)
Definition calculate_breakeven_roas
    (total_fixed_costs event_cost events_per_month projected_revenue : Q)
    : result pyfloat :=
  let breakeven_ad_spend :=
    total_fixed_costs + (event_cost * events_per_month) in
  if Qlt_bool 0 breakeven_ad_spend then
    let* r := pydiv projected_revenue breakeven_ad_spend in Ok (Fin r)
  else Ok Inf.

(** [calculate_current_roas] (app.py 194-208); [None] is Python's [None]. *)
Definition calculate_current_roas (projected_revenue ad_spend : Q)
    : result (option Q) :=
  if Qeq_bool ad_spend 0 then Ok None
  else let* r := pydiv projected_revenue ad_spend in Ok (Some r).

(** [calculate_current_cpp] (app.py 210-224). *)
Definition calculate_current_cpp (ad_spend tickets_sold : Q)
    : result (option Q) :=
  if Qeq_bool tickets_sold 0 then Ok None
  else let* r := pydiv ad_spend tickets_sold in Ok (Some r).

(** [calculate_breakeven_cpp] (app.py 226-250). *)
Definition calculate_breakeven_cpp
    (total_fixed_costs event_cost events_per_month venue_capacity
     attendance_percentage : Q) : result pyfloat :=
  let breakeven_ad_spend :=
    total_fixed_costs + (event_cost * events_per_month) in
  let* share := pydiv attendance_percentage 100 in
  let projected_tickets_sold := venue_capacity * share * events_per_month in
  if Qlt_bool 0 projected_tickets_sold then
    let* r := pydiv breakeven_ad_spend projected_tickets_sold in Ok (Fin r)
  else Ok Inf.

(** ** The six calculations and the threshold table *)

(** The input fields read from the page (app.py 522-650). *)
Record inputs : Type := {
  fixed_costs : Q;
  event_cost : Q;
  ticket_price_pre : Q;
  ticket_price_post : Q;
  sales_mix_pre : Q;
  venue_capacity : Q;
  events_per_month : Q;
  attendance_percentage : Q;
  ad_spend : Q;
  tickets_sold : Q
}.

(** The six values the script derives from them. *)
Record outputs : Type := {
  avg_ticket_price : Q;
  total_fixed_costs : Q;
  projected_revenue : Q;
  projected_profit : Q;
  breakeven_roas : pyfloat;
  breakeven_cpp : pyfloat
}.

(** The six assignments under [# Calculate current values] at the head of
    the [try] block (app.py 708-754).  The first exception raised ends
    them. *)
Definition current_values (i : inputs) : result outputs :=
  let* avg := calculate_avg_ticket_price
                (ticket_price_pre i) (ticket_price_post i) (sales_mix_pre i) in
  let* tfc := calculate_total_fixed_costs
                (fixed_costs i) (events_per_month i) in
  let* rev := calculate_projected_revenue
                avg (venue_capacity i) (attendance_percentage i)
                (events_per_month i) in
  let* profit := calculate_projected_profit
                   rev tfc (event_cost i) (events_per_month i) (ad_spend i) in
  let* roas := calculate_breakeven_roas
                 tfc (event_cost i) (events_per_month i) rev in
  let* cpp := calculate_breakeven_cpp
                tfc (event_cost i) (events_per_month i) (venue_capacity i)
                (attendance_percentage i) in
  Ok {| avg_ticket_price := avg; total_fixed_costs := tfc;
        projected_revenue := rev; projected_profit := profit;
        breakeven_roas := roas; breakeven_cpp := cpp |}.

(** [calculate_threshold_metrics] (app.py 662-705). *)
Definition calculate_threshold_metrics
    (attendance_level avg_ticket_price venue_capacity events_per_month
     total_fixed_costs event_cost : Q) : result (pyfloat * pyfloat) :=
  let* revenue := calculate_projected_revenue
                    avg_ticket_price venue_capacity attendance_level
                    events_per_month in
  let* roas := calculate_breakeven_roas
                 total_fixed_costs event_cost events_per_month revenue in
  let* cpp := calculate_breakeven_cpp
                total_fixed_costs event_cost events_per_month venue_capacity
                attendance_level in
  Ok (roas, cpp).

(** One entry of [threshold_data], before the numbers are formatted for
    display. *)
Record threshold_row : Type := {
  row_level : Q;
  row_roas : pyfloat;
  row_cpp : pyfloat
}.

Definition attendance_levels : list Q := [40; 50; 60; 70; 80; 90].

(** The loop [for level in attendance_levels] (app.py 886-900):
    [threshold_data] is the accumulator, each turn appends one row. *)
Fixpoint threshold_loop
    (levels : list Q) (threshold_data : list threshold_row)
    (avg_ticket_price venue_capacity events_per_month total_fixed_costs
     event_cost : Q) : result (list threshold_row) :=
  match levels with
  | [] => Ok threshold_data
  | level :: rest =>
      let* m := calculate_threshold_metrics
                  level avg_ticket_price venue_capacity events_per_month
                  total_fixed_costs event_cost in
      threshold_loop rest
        (threshold_data ++ [{| row_level := level;
                               row_roas := fst m; row_cpp := snd m |}])
        avg_ticket_price venue_capacity events_per_month total_fixed_costs
        event_cost
  end.

Definition threshold_table
    (avg_ticket_price venue_capacity events_per_month total_fixed_costs
     event_cost : Q) : result (list threshold_row) :=
  threshold_loop attendance_levels [] avg_ticket_price venue_capacity
    events_per_month total_fixed_costs event_cost.

(** ** Comparing results *)

(** Equality of floats up to the representation of a rational. *)
Definition pf_eq (x y : pyfloat) : Prop :=
  match x, y with
  | Fin a, Fin b => a == b
  | Inf, Inf => True
  | _, _ => False
  end.

(** The order of floats: every number is below [float('inf')]. *)
Definition pf_le (x y : pyfloat) : Prop :=
  match x, y with
  | Fin a, Fin b => a <= b
  | _, Inf => True
  | Inf, Fin _ => False
  end.

(** The scenario the specification works through by hand. *)
Definition scenario : inputs :=
  {| fixed_costs := 5000; event_cost := 1000;
     ticket_price_pre := 25; ticket_price_post := 50; sales_mix_pre := 75;
     venue_capacity := 200; events_per_month := 1;
     attendance_percentage := 40; ad_spend := 0; tickets_sold := 0 |}.

(** The input with [level] in place of its attendance percentage and every
    other field as it is. *)
Definition with_attendance (level : Q) (i : inputs) : inputs :=
  {| fixed_costs := fixed_costs i; event_cost := event_cost i;
     ticket_price_pre := ticket_price_pre i;
     ticket_price_post := ticket_price_post i;
     sales_mix_pre := sales_mix_pre i;
     venue_capacity := venue_capacity i;
     events_per_month := events_per_month i;
     attendance_percentage := level;
     ad_spend := ad_spend i; tickets_sold := tickets_sold i |}.

(** A row holds the two break-even metrics recomputed at its own level. *)
Definition row_recomputed (avg cap epm tfc ec : Q) (r : threshold_row)
    : Prop :=
  exists revenue,
    calculate_projected_revenue avg cap (row_level r) epm = Ok revenue
    /\ calculate_breakeven_roas tfc ec epm revenue = Ok (row_roas r)
    /\ calculate_breakeven_cpp tfc ec epm cap (row_level r) = Ok (row_cpp r).

(** ** Saved scenarios

    [st.session_state.scenarios] is a Python dict from names to dicts.
    Dicts are objects: [save_scenario] writes into the dict it was handed
    and stores that very object, so the model keeps a heap of dict objects
    and lets the scenario mapping hold references into it. *)
Module Scenarios.

(** A value held in a scenario dict. *)
Inductive pyval : Type :=
  | PyNum (q : Q)
  | PyStr (s : string).

(** The identity of a dict object. *)
Abbreviation ref := positive.

(** The contents of a dict object. *)
Abbreviation pydict := (gmap string pyval).

Record session_state : Type := {
  heap : gmap ref pydict;
  scenarios : gmap string ref
}.

(** The mapping as Python shows it: every name with the present contents
    of the dict it refers to. *)
Definition stored (st : session_state) : gmap string pydict :=
  omap (fun r : ref => heap st !! r) (scenarios st).

(** [save_scenario] (app.py 27-45).  [now] is the text
    [datetime.now().strftime(...)] evaluates to; the result pairs the
    returned boolean with the state after the call.  [values] is a dict of
    the heap, which does not hold the scenario mapping: the call with the
    mapping itself as [values] is in module [Objects]. *)
Definition save_scenario
    (now : string) (name : string) (values : ref) (st : session_state)
    : bool * session_state :=
  match scenarios st !! name with
  | Some _ => (false, st)
  | None =>
      let heap' :=
        alter (fun d : pydict => <["saved_at" := PyStr now]> d)
              values (heap st) in
      (true, {| heap := heap';
                scenarios := <[name := values]> (scenarios st) |})
  end.

(** A dict display [{...}] creates a new object, as the one
    [get_current_values()] returns (app.py 47-61). *)
Definition new_dict (d : pydict) (st : session_state)
    : ref * session_state :=
  let r := fresh (dom (heap st)) in
  (r, {| heap := <[r := d]> (heap st); scenarios := scenarios st |}).

(** Every saved scenario refers to a live object. *)
Definition well_formed (st : session_state) : Prop :=
  forall name r, scenarios st !! name = Some r -> is_Some (heap st !! r).

(** No saved scenario is the object [values]. *)
Definition unshared (values : ref) (st : session_state) : Prop :=
  forall name, scenarios st !! name <> Some values.

(** A store in which the scenario ["base"] was saved earlier. *)
Definition base_dict : pydict :=
  {[ "fixed_costs" := PyNum 5000;
     "saved_at" := PyStr "2024-05-01 10:00:00" ]}.

Definition one_saved : session_state :=
  {| heap := {[ 1%positive := base_dict ]};
     scenarios := {[ "base" := 1%positive ]} |}.

End Scenarios.

Import Scenarios.

(** ** [save_scenario] on any dict object

    [Scenarios] keeps the scenario mapping apart from the dicts it refers
    to, and a dict there holds numbers and strings only: that is the use
    the page makes of [save_scenario].  Python lets a caller hand the
    function any dict, the mapping [st.session_state.scenarios] included.
    Here the mapping is one more object of the heap, and a dict may hold
    references to dicts. *)
Module Objects.

(** A value held in a dict. *)
Inductive value : Type :=
  | Num (q : Q)
  | Str (s : string)
  | Ref (r : positive).

Abbreviation dict := (gmap string value).

(** The dict objects, and which of them is
    [st.session_state.scenarios]. *)
Record state : Type := {
  objects : gmap positive dict;
  mapping : positive
}.

(** [name in st.session_state.scenarios] (app.py 39). *)
Definition name_taken (name : string) (st : state) : bool :=
  match objects st !! mapping st with
  | Some m => bool_decide (is_Some (m !! name))
  | None => false
  end.

(** [save_scenario] (app.py 27-45).  The item assignments of lines 43 and
    44 write into the object [values] and then into the mapping. *)
Definition save_scenario
    (now : string) (name : string) (values : positive) (st : state)
    : bool * state :=
  if name_taken name st then (false, st)
  else
    let objects1 :=
      alter (fun d : dict => <["saved_at" := Str now]> d)
            values (objects st) in
    let objects2 :=
      alter (fun m : dict => <[name := Ref values]> m)
            (mapping st) objects1 in
    (true, {| objects := objects2; mapping := mapping st |}).

(** A value of [Scenarios] as a value here. *)
Definition lift (v : pyval) : value :=
  match v with
  | PyNum q => Num q
  | PyStr s => Str s
  end.

(** A state of [Scenarios] as a heap of objects, the scenario mapping
    being the object [m]. *)
Definition embed (m : positive) (st : session_state) : state :=
  {| objects := <[m := (Ref <$> scenarios st : dict)]>
                  ((fun d : pydict => (lift <$> d : dict)) <$> heap st);
     mapping := m |}.




End Objects.


(** ** The engine on binary64 numbers

    The same functions with Python's [float] read as IEEE 754 binary64, the
    arithmetic of Rocq's primitive floats.  An [int] argument enters a
    product or a quotient as the float of the same value. *)
Module Float64.

Local Open Scope float_scope.

Definition pydiv (x y : float) : result float :=
  if y =? 0 then Raise ZeroDivisionError else Ok (x / y).

(** [calculate_avg_ticket_price] (app.py 63-91). *)
Definition calculate_avg_ticket_price
    (ticket_price_pre ticket_price_post sales_mix_pre : float)
    : result float :=
  if negb ((0 <=? sales_mix_pre) && (sales_mix_pre <=? 100)) then
    Raise (ValueError "Pre-show sales mix must be between 0 and 100")
  else if (ticket_price_pre <? 0) || (ticket_price_post <? 0) then
    Raise (ValueError "Ticket prices cannot be negative")
  else
    let sales_mix_post := 100 - sales_mix_pre in
    let* a := pydiv (ticket_price_pre * sales_mix_pre) 100 in
    let* b := pydiv (ticket_price_post * sales_mix_post) 100 in
    Ok (a + b).

(** [calculate_total_fixed_costs] (app.py 93-113). *)
Definition calculate_total_fixed_costs (fixed_costs events_per_month : float)
    : result float :=
  if fixed_costs <? 0 then
    Raise (ValueError "Fixed costs cannot be negative")
  else if events_per_month <? 0 then
    Raise (ValueError "Events per month cannot be negative")
  else
    Ok (fixed_costs * events_per_month).

(** [calculate_projected_revenue] (app.py 115-146). *)
Definition calculate_projected_revenue
    (avg_ticket_price venue_capacity attendance_percentage
     events_per_month : float) : result float :=
  if negb ((0 <=? attendance_percentage)
           && (attendance_percentage <=? 100)) then
    Raise (ValueError "Attendance percentage must be between 0 and 100")
  else if venue_capacity <? 0 then
    Raise (ValueError "Venue capacity cannot be negative")
  else if events_per_month <? 0 then
    Raise (ValueError "Events per month cannot be negative")
  else
    let* share := pydiv attendance_percentage 100 in
    let revenue_per_event := avg_ticket_price * venue_capacity * share in
    Ok (revenue_per_event * events_per_month).

(** [calculate_breakeven_roas] (app.py 172-192). *)
Definition calculate_breakeven_roas
    (total_fixed_costs event_cost events_per_month projected_revenue : float)
    : result float :=
  let breakeven_ad_spend :=
    total_fixed_costs + (event_cost * events_per_month) in
  if 0 <? breakeven_ad_spend then
    pydiv projected_revenue breakeven_ad_spend
  else Ok infinity.

(** [calculate_breakeven_cpp] (app.py 226-250). *)
Definition calculate_breakeven_cpp
    (total_fixed_costs event_cost events_per_month venue_capacity
     attendance_percentage : float) : result float :=
  let breakeven_ad_spend :=
    total_fixed_costs + (event_cost * events_per_month) in
  let* share := pydiv attendance_percentage 100 in
  let projected_tickets_sold := venue_capacity * share * events_per_month in
  if 0 <? projected_tickets_sold then
    pydiv breakeven_ad_spend projected_tickets_sold
  else Ok infinity.

End Float64.

(** ** The older variant of [streamlit_app.py]

    A second page with its own calculation functions: zero denominators
    give 0, quotients are rounded to two decimals, and the break-even ROAS
    is total costs over fixed costs.  On [Q] a quotient is exact and so is
    its rounding; Python rounds the binary64 quotient, which can fall on
    the other side of a tie, and a binary64 product can underflow to zero
    where the exact one does not. *)
Module StreamlitApp.

(** Rounding to the nearest integer, ties to the even one. *)
Definition round_half_even (x : Q) : Z :=
  let f := Qfloor x in
  match Qcompare (x - inject_Z f) (1 # 2) with
  | Lt => f
  | Gt => (f + 1)%Z
  | Eq => if Z.even f then f else (f + 1)%Z
  end.

(** [round(x, 2)] of an exact [x]: the nearest multiple of 0.01, a tie
    going to the even one.  Python's [round] does this on the binary64
    number it is given, so the two differ where the exact quotient is a
    tie or within a rounding error of one. *)
Definition round2 (x : Q) : Q := inject_Z (round_half_even (x * 100)) / 100.

(** [calculate_average_ticket_price] (streamlit_app.py 101-104). *)
Definition calculate_average_ticket_price
    (ticket_price_pre ticket_price_post sales_mix_pre sales_mix_post : Q)
    : result Q :=
  if Qeq_bool (sales_mix_pre + sales_mix_post) 0 then Ok 0
  else
    let* share_pre := pydiv sales_mix_pre 100 in
    let* share_post := pydiv sales_mix_post 100 in
    Ok ((ticket_price_pre * share_pre) + (ticket_price_post * share_post)).

(** [calculate_breakeven_roas] (streamlit_app.py 115-120). *)
Definition calculate_breakeven_roas
    (fixed_costs event_cost events_per_month : Q) : result Q :=
  let total_fixed_costs := fixed_costs * events_per_month in
  if Qeq_bool total_fixed_costs 0 then Ok 0
  else
    let total_costs := total_fixed_costs + (event_cost * events_per_month) in
    let* r := pydiv total_costs total_fixed_costs in
    Ok (round2 r).

(** [calculate_breakeven_cpp] (streamlit_app.py 122-126).  The check is
    on [attendance_percentage] and [capacity], the division is by
    [capacity * attendance_percentage / 100]: on [Q] the one is zero
    exactly when one of the others is, on binary64 the quotient can
    underflow to zero and the division raise. *)
Definition calculate_breakeven_cpp
    (total_fixed_costs event_cost events_per_month attendance_percentage
     capacity : Q) : result Q :=
  if Qeq_bool attendance_percentage 0 || Qeq_bool capacity 0 then Ok 0
  else
    let total_costs := total_fixed_costs + (event_cost * events_per_month) in
    let* tickets := pydiv (capacity * attendance_percentage) 100 in
    let* r := pydiv total_costs tickets in
    Ok (round2 r).

(** [calculate_current_roas] (streamlit_app.py 128-131). *)
Definition calculate_current_roas (ad_spend projected_revenue : Q)
    : result Q :=
  if Qeq_bool ad_spend 0 then Ok 0
  else let* r := pydiv projected_revenue ad_spend in Ok (round2 r).

(** [calculate_current_cpp] (streamlit_app.py 133-136). *)
Definition calculate_current_cpp (ad_spend tickets_sold : Q) : result Q :=
  if Qeq_bool tickets_sold 0 then Ok 0
  else let* r := pydiv ad_spend tickets_sold in Ok (round2 r).

(** [calculate_total_fixed_costs] (streamlit_app.py 106-107). *)
Definition calculate_total_fixed_costs (fixed_costs events_per_month : Q)
    : Q :=
  fixed_costs * events_per_month.

(** [calculate_projected_revenue] (streamlit_app.py 109-110): the number
    of events is not a factor here. *)
Definition calculate_projected_revenue
    (avg_ticket_price capacity attendance_percentage : Q) : result Q :=
  let* share := pydiv attendance_percentage 100 in
  Ok ((avg_ticket_price * capacity) * share).

(** [calculate_projected_profit] (streamlit_app.py 112-113). *)
Definition calculate_projected_profit
    (projected_revenue total_fixed_costs event_cost events_per_month : Q)
    : Q :=
  projected_revenue - total_fixed_costs - (event_cost * events_per_month).

Definition attendance_levels : list Q := [40; 50; 60; 70; 80; 90].

(** The two numeric columns of [data] (streamlit_app.py 169-173), before
    they are formatted: break-even ROAS and break-even CPP per level. *)
Definition threshold_data
    (fixed_costs total_fixed_costs event_cost events_per_month capacity : Q)
    : result (list Q * list Q) :=
  let* roas_column :=
    map_result (fun _ : Q =>
                  calculate_breakeven_roas fixed_costs event_cost
                    events_per_month)
               attendance_levels in
  let* cpp_column :=
    map_result (fun p : Q =>
                  calculate_breakeven_cpp total_fixed_costs event_cost
                    events_per_month p capacity)
               attendance_levels in
  Ok (roas_column, cpp_column).

End StreamlitApp.

(** ** The script [test_thresholds.py]

    It computes a threshold table of its own: here the break-even ROAS is
    total costs over revenue. *)
Module TestThresholds.

Definition attendance_levels : list Z := [40; 50; 60; 70; 80; 90]%Z.

(** The body of the loop (test_thresholds.py 35-55) at one attendance
    level: the pair stored under that level. *)
Definition threshold_at
    (fixed_costs event_cost capacity ticket_price_pre ticket_price_post
     sales_mix_pre attendance : Q) : result (pyfloat * pyfloat) :=
  let* seats := pydiv (capacity * attendance) 100 in
  let* share_pre := pydiv sales_mix_pre 100 in
  let* share_pre' := pydiv sales_mix_pre 100 in
  let total_revenue :=
    seats * ((ticket_price_pre * share_pre)
             + (ticket_price_post * (1 - share_pre'))) in
  let total_costs := fixed_costs + event_cost in
  let* breakeven_roas :=
    if Qlt_bool 0 total_revenue then
      let* r := pydiv total_costs total_revenue in Ok (Fin r)
    else Ok Inf in
  let* attendance_count := pydiv (capacity * attendance) 100 in
  let* breakeven_cpp :=
    if Qlt_bool 0 attendance_count then
      let* r := pydiv total_costs attendance_count in Ok (Fin r)
    else Ok Inf in
  Ok (breakeven_roas, breakeven_cpp).

(** The loop itself; the dict [thresholds] is keyed by the level printed
    with a percent sign. *)
Fixpoint thresholds_loop (levels : list Z)
    (thresholds : gmap string (pyfloat * pyfloat))
    (fixed_costs event_cost capacity ticket_price_pre ticket_price_post
     sales_mix_pre : Q) : result (gmap string (pyfloat * pyfloat)) :=
  match levels with
  | [] => Ok thresholds
  | attendance :: rest =>
      let* m := threshold_at fixed_costs event_cost capacity ticket_price_pre
                  ticket_price_post sales_mix_pre (inject_Z attendance) in
      thresholds_loop rest
        (<[(pretty attendance ++ "%")%string := m]> thresholds)
        fixed_costs event_cost capacity ticket_price_pre ticket_price_post
        sales_mix_pre
  end.

(** [calculate_profitability_thresholds] (test_thresholds.py 1-59). *)
Definition calculate_profitability_thresholds
    (fixed_costs event_cost capacity ticket_price_pre ticket_price_post
     sales_mix_pre : Q) : result (gmap string (pyfloat * pyfloat)) :=
  if Qle_bool capacity 0 then
    Raise (ValueError "Capacity must be positive")
  else if existsb (fun price => Qlt_bool price 0)
                  [ticket_price_pre; ticket_price_post] then
    Raise (ValueError "Ticket prices cannot be negative")
  else if negb (Qle_bool 0 sales_mix_pre && Qle_bool sales_mix_pre 100) then
    Raise (ValueError "Sales mix must be between 0 and 100")
  else
    thresholds_loop attendance_levels ∅ fixed_costs event_cost capacity
      ticket_price_pre ticket_price_post sales_mix_pre.

End TestThresholds.

(** ** The session state of the page

    [fields] holds every entry of [st.session_state] but ["scenarios"],
    which is the scenario store with its dict objects.  A dict with a key
    ["scenarios"] of its own is outside this reading; the dicts the page
    builds have none. *)
Module Session.

Record page : Type := {
  fields : gmap string pyval;
  store : session_state
}.

(** The keys of the dict display of [get_current_values] (app.py 49-61),
    in its order. *)
Definition input_keys : list string :=
  ["fixed_costs"; "event_cost"; "ticket_price_pre"; "ticket_price_post";
   "venue_capacity"; "events_per_month"; "attendance_percentage";
   "sales_mix_pre"; "ad_spend"; "tickets_sold"; "historical_attendance"].

(** The dict [defaults] of [reset_inputs] (app.py 425-437); the one at the
    top of the script (app.py 8-21) has the same entries and
    ["scenarios": {}]. *)
Definition input_defaults : gmap string pyval :=
  list_to_map
    [("fixed_costs", PyNum 0); ("event_cost", PyNum 0);
     ("ticket_price_pre", PyNum 0); ("ticket_price_post", PyNum 0);
     ("venue_capacity", PyNum 1); ("events_per_month", PyNum 1);
     ("attendance_percentage", PyNum 50); ("sales_mix_pre", PyNum 50);
     ("ad_spend", PyNum 0); ("tickets_sold", PyNum 0);
     ("historical_attendance", PyNum 0)].

(** The loop at the top of the script (app.py 23-25): a default is stored
    only under a key that is not in the session state yet.  The store is
    there from the start, so the entry ["scenarios"] is never missing. *)
Definition init_defaults (p : page) : page :=
  {| fields :=
       map_fold (fun key value (f : gmap string pyval) =>
                   if decide (is_Some (f !! key)) then f
                   else <[key := value]> f)
                (fields p) input_defaults;
     store := store p |}.

(** [reset_inputs] (app.py 423-439). *)
Definition reset_inputs (p : page) : page :=
  {| fields :=
       map_fold (fun key value (f : gmap string pyval) => <[key := value]> f)
                (fields p) input_defaults;
     store := store p |}.

(** The entries read by a dict display, key by key; [None] is the
    [AttributeError] of a missing entry. *)
Fixpoint read_fields (keys : list string) (f : gmap string pyval)
    : option pydict :=
  match keys with
  | [] => Some ∅
  | key :: rest =>
      match f !! key with
      | None => None
      | Some value =>
          match read_fields rest f with
          | None => None
          | Some d => Some (<[key := value]> d)
          end
      end
  end.

(** [get_current_values] (app.py 47-61): a new dict object with the
    eleven input fields. *)
Definition get_current_values (p : page) : option (ref * page) :=
  match read_fields input_keys (fields p) with
  | None => None
  | Some d =>
      let (r, st) := new_dict d (store p) in
      Some (r, {| fields := fields p; store := st |})
  end.

(** The call [save_scenario(name, get_current_values())] of the Save
    button (app.py 462); [name] is the name already stripped. *)
Definition save_current_values (now name : string) (p : page)
    : option (bool * page) :=
  match get_current_values p with
  | None => None
  | Some (values, p1) =>
      let (saved, st) := save_scenario now name values (store p1) in
      Some (saved, {| fields := fields p1; store := st |})
  end.

(** The body of the Load button (app.py 489-493): the time stamp is
    popped from the saved dict itself, then every entry of that dict is
    copied into the session state.  [None] is the [KeyError] of a name
    that is not saved. *)
Definition load_scenario (selected : string) (p : page) : option page :=
  match scenarios (store p) !! selected with
  | None => None
  | Some r =>
      match heap (store p) !! r with
      | None => None
      | Some values =>
          let values' := delete "saved_at" values in
          Some {| fields :=
                    map_fold (fun key value (f : gmap string pyval) =>
                                <[key := value]> f)
                             (fields p) values';
                  store := {| heap := <[r := values']> (heap (store p));
                              scenarios := scenarios (store p) |} |}
      end
  end.

(** A page whose inputs are those of the scenario of the specification,
    with one scenario saved earlier. *)
Definition scenario_fields : gmap string pyval :=
  list_to_map
    [("fixed_costs", PyNum 5000); ("event_cost", PyNum 1000);
     ("ticket_price_pre", PyNum 25); ("ticket_price_post", PyNum 50);
     ("venue_capacity", PyNum 200); ("events_per_month", PyNum 1);
     ("attendance_percentage", PyNum 40); ("sales_mix_pre", PyNum 75);
     ("ad_spend", PyNum 0); ("tickets_sold", PyNum 0);
     ("historical_attendance", PyNum 0); ("scenario_name", PyStr "spring")].

Definition scenario_page : page :=
  {| fields := scenario_fields; store := one_saved |}.

End Session.

Import Session.

(** ** The [try] block of the script

    The calculations, the rendering and the threshold table of [app.py]
    are statements of one [try] block at module level (app.py 708-922).
    A module-level name is read from the namespace of the script, which is
    empty when a run starts; reading a name that no statement has bound
    yet raises [NameError]. *)

(** What can end the [try] block: an exception of the calculation
    functions, or a [NameError]. *)
Inductive script_exn : Type :=
  | EngineError (e : exn)
  | NameError (name : string).

(** A run of a sequence of statements. *)
Inductive run (A : Type) : Type :=
  | Completed (a : A)
  | Stopped (e : script_exn).
Arguments Completed {A} a.
Arguments Stopped {A} e.

Definition run_bind {A B : Type} (r : run A) (k : A -> run B) : run B :=
  match r with
  | Completed a => k a
  | Stopped e => Stopped e
  end.

Notation "'run*' x ':=' r 'in' k" := (run_bind r (fun x => k))
  (at level 10, x name, r at level 100, k at level 200).

(** A call of a calculation function as a statement of the script. *)
Definition engine {A : Type} (r : result A) : run A :=
  match r with
  | Ok a => Completed a
  | Raise e => Stopped (EngineError e)
  end.

(** Every name a statement of app.py 1-772 binds at module level: the
    imports, the functions, the layout and input variables, the six
    calculated values and the two profit strings.  Some are bound on some
    runs only; no name outside this list is bound when line 773 is
    reached. *)
Definition names_bound_at_render : list string :=
  ["st"; "json"; "os"; "datetime"; "Path"; "defaults"; "key"; "value";
   "save_scenario"; "get_current_values"; "calculate_avg_ticket_price";
   "calculate_total_fixed_costs"; "calculate_projected_revenue";
   "calculate_projected_profit"; "calculate_breakeven_roas";
   "calculate_current_roas"; "calculate_current_cpp";
   "calculate_breakeven_cpp"; "help_col1"; "help_col2"; "show_help";
   "close_col1"; "close_col2"; "help_left"; "help_right"; "reset_inputs";
   "scenario_container"; "save_col"; "load_col"; "reset_col";
   "scenario_name"; "e"; "scenarios"; "scenario_names";
   "selected_scenario"; "values"; "left_col"; "right_col"; "fixed_costs";
   "event_cost"; "ticket_price_pre"; "ticket_price_post"; "venue_capacity";
   "events_per_month"; "attendance_percentage"; "sales_mix_pre"; "ad_spend";
   "tickets_sold"; "historical_attendance"; "calculate_threshold_metrics";
   "avg_ticket_price"; "total_fixed_costs"; "projected_revenue";
   "projected_profit"; "breakeven_roas"; "breakeven_cpp"; "profit_class";
   "profit_value"].

(** Reading a module-level name. *)
Definition read_name (bound : list string) (name : string) : run unit :=
  if decide (name ∈ bound) then Completed tt else Stopped (NameError name).

(** What the block has computed when it completes. *)
Record page_results : Type := {
  derived : outputs;
  roas_now : option Q;
  cpp_now : option Q;
  table : list threshold_row
}.

(** The [try] block (app.py 708-922), the calls of streamlit left out:
    the six calculations (710-754); the profit paragraph, an f-string
    whose fields read, in this order, [profit_class], [profit_value],
    [profit_class], [projected_profit] and [current_roas] (773-799); the
    current metrics, where [current_roas] and [current_cpp] are first
    assigned (839 and 861); the loop of the threshold table (883-900). *)
Definition try_block (i : inputs) : run page_results :=
  run* o := engine (current_values i) in
  run* _ := read_name names_bound_at_render "profit_class" in
  run* _ := read_name names_bound_at_render "profit_value" in
  run* _ := read_name names_bound_at_render "profit_class" in
  run* _ := read_name names_bound_at_render "projected_profit" in
  run* _ := read_name names_bound_at_render "current_roas" in
  run* croas := engine (calculate_current_roas
                          (projected_revenue o) (ad_spend i)) in
  run* ccpp := engine (calculate_current_cpp (ad_spend i) (tickets_sold i)) in
  run* rows := engine (threshold_table
                         (avg_ticket_price o) (venue_capacity i)
                         (events_per_month i) (total_fixed_costs o)
                         (event_cost i)) in
  Completed {| derived := o; roas_now := croas; cpp_now := ccpp;
               table := rows |}.

(** What the page shows in place of the results. *)
Inductive page_view : Type :=
  | Results (r : page_results)
  | CalculationError (msg : string)
  | UnexpectedError (e : script_exn).

(** The [try] block with its two handlers (app.py 708-927):
    [except ValueError] shows a calculation error with the message,
    [except Exception] an unexpected error. *)
Definition run_page (i : inputs) : page_view :=
  match try_block i with
  | Completed r => Results r
  | Stopped (EngineError (ValueError msg)) => CalculationError msg
  | Stopped e => UnexpectedError e
  end.

(** ** Valid inputs *)

(** The conditions the checks of the six calculations put on an input. *)
Definition valid_inputs (i : inputs) : Prop :=
  0 <= sales_mix_pre i <= 100
  /\ 0 <= ticket_price_pre i /\ 0 <= ticket_price_post i
  /\ 0 <= fixed_costs i /\ 0 <= events_per_month i
  /\ 0 <= attendance_percentage i <= 100
  /\ 0 <= venue_capacity i
  /\ 0 <= event_cost i /\ 0 <= ad_spend i.

(** A call that raises nothing but [ValueError]. *)
Definition only_value_error {A : Type} (r : result A) : Prop :=
  forall e, r = Raise e -> exists msg, e = ValueError msg.

(** ** Basic facts *)

(** [lra] and [nra] know no division on [Q]: a percentage [x / 100] is
    turned into the product [x * (1 # 100)] first. *)
Ltac percent := unfold Qdiv; change (/ 100) with (1 # 100).

Lemma Qlt_bool_iff (x y : Q) : Qlt_bool x y = true <-> x < y.
Proof.
  unfold Qlt_bool. rewrite negb_true_iff.
  destruct (Qle_bool y x) eqn:E.
  - apply Qle_bool_iff in E. split; [discriminate | intros H; lra].
  - split; [intros _ | reflexivity].
    apply Qnot_le_lt. intros H. apply Qle_bool_iff in H. congruence.
Qed.

Lemma Qlt_bool_false_iff (x y : Q) : Qlt_bool x y = false <-> y <= x.
Proof.
  unfold Qlt_bool. rewrite negb_false_iff. apply Qle_bool_iff.
Qed.

Lemma pydiv_ok (x y : Q) : ~ y == 0 -> pydiv x y = Ok (x / y).
Proof.
  intros H. unfold pydiv.
  destruct (Qeq_bool y 0) eqn:E; [| reflexivity].
  apply Qeq_bool_iff in E. contradiction.
Qed.

Lemma pydiv_100 (x : Q) : pydiv x 100 = Ok (x / 100).
Proof. reflexivity. Qed.

Lemma percentage_guard (p : Q) :
  negb (Qle_bool 0 p && Qle_bool p 100) = false <-> 0 <= p <= 100.
Proof.
  rewrite negb_false_iff, andb_true_iff, !Qle_bool_iff. reflexivity.
Qed.

(** The guards of [calculate_avg_ticket_price] pass exactly on valid input. *)
Lemma avg_ticket_price_ok (pre post mix : Q) :
  0 <= pre -> 0 <= post -> 0 <= mix <= 100 ->
  calculate_avg_ticket_price pre post mix
  = Ok (pre * mix / 100 + post * (100 - mix) / 100).
Proof.
  intros Hpre Hpost Hmix. unfold calculate_avg_ticket_price.
  apply percentage_guard in Hmix. rewrite Hmix.
  apply Qlt_bool_false_iff in Hpre, Hpost. rewrite Hpre, Hpost.
  reflexivity.
Qed.

Lemma projected_revenue_ok (avg cap att epm : Q) :
  0 <= att <= 100 -> 0 <= cap -> 0 <= epm ->
  calculate_projected_revenue avg cap att epm
  = Ok (avg * cap * (att / 100) * epm).
Proof.
  intros Hatt Hcap Hepm. unfold calculate_projected_revenue.
  apply percentage_guard in Hatt. rewrite Hatt.
  apply Qlt_bool_false_iff in Hcap, Hepm. rewrite Hcap, Hepm.
  reflexivity.
Qed.

Lemma breakeven_roas_pos (tfc ec epm rev : Q) :
  0 < tfc + ec * epm ->
  calculate_breakeven_roas tfc ec epm rev
  = Ok (Fin (rev / (tfc + ec * epm))).
Proof.
  intros Hd. unfold calculate_breakeven_roas.
  assert (E : Qlt_bool 0 (tfc + ec * epm) = true)
    by (apply Qlt_bool_iff; exact Hd).
  rewrite E, pydiv_ok; [reflexivity | lra].
Qed.

Lemma breakeven_roas_nonpos (tfc ec epm rev : Q) :
  tfc + ec * epm <= 0 ->
  calculate_breakeven_roas tfc ec epm rev = Ok Inf.
Proof.
  intros Hd. unfold calculate_breakeven_roas.
  apply Qlt_bool_false_iff in Hd. rewrite Hd. reflexivity.
Qed.

Lemma breakeven_cpp_pos (tfc ec epm cap att : Q) :
  0 < cap * (att / 100) * epm ->
  calculate_breakeven_cpp tfc ec epm cap att
  = Ok (Fin ((tfc + ec * epm) / (cap * (att / 100) * epm))).
Proof.
  intros Ht. unfold calculate_breakeven_cpp. rewrite pydiv_100. cbn [bind].
  assert (E : Qlt_bool 0 (cap * (att / 100) * epm) = true)
    by (apply Qlt_bool_iff; exact Ht).
  rewrite E, pydiv_ok; [reflexivity | lra].
Qed.

Lemma breakeven_cpp_nonpos (tfc ec epm cap att : Q) :
  cap * (att / 100) * epm <= 0 ->
  calculate_breakeven_cpp tfc ec epm cap att = Ok Inf.
Proof.
  intros Ht. unfold calculate_breakeven_cpp. rewrite pydiv_100. cbn [bind].
  apply Qlt_bool_false_iff in Ht. rewrite Ht. reflexivity.
Qed.

Lemma Qdiv_le_num (a b c : Q) : 0 < c -> a <= b -> a / c <= b / c.
Proof.
  intros Hc Hab. unfold Qdiv.
  apply Qmult_le_compat_r; [exact Hab |].
  apply Qinv_le_0_compat. lra.
Qed.

Lemma Qdiv_le_den (a b c : Q) : 0 <= a -> 0 < b -> b <= c -> a / c <= a / b.
Proof.
  intros Ha Hb Hbc.
  apply Qle_shift_div_r; [lra |].
  assert (Hq : 0 <= a / b).
  { unfold Qdiv. apply Qmult_le_0_compat; [exact Ha |].
    apply Qinv_le_0_compat. lra. }
  assert (E : a == a / b * b) by (field; lra).
  rewrite E at 1. nra.
Qed.

Lemma pf_le_inf (x : pyfloat) : pf_le x Inf.
Proof. destruct x; exact I. Qed.

(** Costs over a quantity, or [float('inf')] when the quantity is not
    positive: the shape of the break-even CPP. *)
Lemma guarded_ratio_antitone (costs x y : Q) :
  0 <= costs -> x <= y ->
  pf_le (if Qlt_bool 0 y then Fin (costs / y) else Inf)
        (if Qlt_bool 0 x then Fin (costs / x) else Inf).
Proof.
  intros Hc Hxy.
  destruct (Qlt_bool 0 x) eqn:Ex; [| apply pf_le_inf].
  apply Qlt_bool_iff in Ex.
  assert (Ey : Qlt_bool 0 y = true) by (apply Qlt_bool_iff; lra).
  rewrite Ey. cbn [pf_le]. apply Qdiv_le_den; assumption.
Qed.

(** Both break-even functions in closed form: the guarded division never
    raises. *)
Lemma breakeven_roas_eq (tfc ec epm rev : Q) :
  calculate_breakeven_roas tfc ec epm rev
  = Ok (if Qlt_bool 0 (tfc + ec * epm)
        then Fin (rev / (tfc + ec * epm)) else Inf).
Proof.
  destruct (Qlt_bool 0 (tfc + ec * epm)) eqn:E.
  - apply breakeven_roas_pos, Qlt_bool_iff, E.
  - apply breakeven_roas_nonpos, Qlt_bool_false_iff, E.
Qed.

Lemma breakeven_cpp_eq (tfc ec epm cap att : Q) :
  calculate_breakeven_cpp tfc ec epm cap att
  = Ok (if Qlt_bool 0 (cap * (att / 100) * epm)
        then Fin ((tfc + ec * epm) / (cap * (att / 100) * epm)) else Inf).
Proof.
  destruct (Qlt_bool 0 (cap * (att / 100) * epm)) eqn:E.
  - apply breakeven_cpp_pos, Qlt_bool_iff, E.
  - apply breakeven_cpp_nonpos, Qlt_bool_false_iff, E.
Qed.

(** Monotonicity of the two quantities that depend on the attendance. *)
Lemma tickets_monotone (cap epm a1 a2 : Q) :
  0 <= cap -> 0 <= epm -> a1 <= a2 ->
  cap * (a1 / 100) * epm <= cap * (a2 / 100) * epm.
Proof.
  intros Hcap Hepm Ha.
  assert (H : 0 <= cap * epm) by (apply Qmult_le_0_compat; assumption).
  percent. nra.
Qed.

Lemma revenue_monotone (avg cap epm a1 a2 : Q) :
  0 <= avg -> 0 <= cap -> 0 <= epm -> a1 <= a2 ->
  avg * cap * (a1 / 100) * epm <= avg * cap * (a2 / 100) * epm.
Proof.
  intros Havg Hcap Hepm Ha.
  assert (H : 0 <= avg * (cap * epm))
    by (repeat apply Qmult_le_0_compat; assumption).
  percent. nra.
Qed.

(** ** Properties of the engine *)

(** C1.  [calculate_breakeven_roas] forms
    [breakeven_ad_spend = total_fixed_costs + event_cost * events_per_month];
    it returns exactly the quotient [projected_revenue / breakeven_ad_spend]
    when that sum is positive and [float('inf')] when it is zero, and on no
    input does the call raise. *)
Theorem breakeven_roas_spec (tfc ec epm rev : Q) :
  let breakeven_ad_spend := tfc + ec * epm in
  (0 < breakeven_ad_spend ->
     calculate_breakeven_roas tfc ec epm rev
     = Ok (Fin (rev / breakeven_ad_spend)))
  /\ (breakeven_ad_spend == 0 ->
     calculate_breakeven_roas tfc ec epm rev = Ok Inf)
  /\ (exists v, calculate_breakeven_roas tfc ec epm rev = Ok v).
Proof.
  intros d. subst d. split; [| split].
  - apply breakeven_roas_pos.
  - intros H. apply breakeven_roas_nonpos. lra.
  - eexists. apply breakeven_roas_eq.
Qed.

Lemma breakeven_roas_spec_witness :
  calculate_breakeven_roas 5000 1000 1 2500
    = Ok (Fin (2500 / (5000 + 1000 * 1)))
  /\ calculate_breakeven_roas 0 0 1 2500 = Ok Inf.
Proof.
  split.
  - apply (proj1 (breakeven_roas_spec 5000 1000 1 2500)). reflexivity.
  - apply (proj1 (proj2 (breakeven_roas_spec 0 0 1 2500))). reflexivity.
Defined.

(** C5.  [calculate_current_roas] returns [None] when [ad_spend == 0] and
    [projected_revenue / ad_spend] otherwise; [calculate_current_cpp]
    returns [None] when [tickets_sold == 0] and [ad_spend / tickets_sold]
    otherwise.  Neither call raises. *)
Theorem current_metrics_spec (rev ad tickets : Q) :
  (ad == 0 -> calculate_current_roas rev ad = Ok None)
  /\ (~ ad == 0 -> calculate_current_roas rev ad = Ok (Some (rev / ad)))
  /\ (tickets == 0 -> calculate_current_cpp ad tickets = Ok None)
  /\ (~ tickets == 0 ->
      calculate_current_cpp ad tickets = Ok (Some (ad / tickets))).
Proof.
  unfold calculate_current_roas, calculate_current_cpp.
  repeat split; intros H.
  - apply Qeq_bool_iff in H. rewrite H. reflexivity.
  - destruct (Qeq_bool ad 0) eqn:E.
    + apply Qeq_bool_iff in E. contradiction.
    + rewrite pydiv_ok by exact H. reflexivity.
  - apply Qeq_bool_iff in H. rewrite H. reflexivity.
  - destruct (Qeq_bool tickets 0) eqn:E.
    + apply Qeq_bool_iff in E. contradiction.
    + rewrite pydiv_ok by exact H. reflexivity.
Qed.

Lemma current_metrics_spec_witness :
  calculate_current_roas 2500 0 = Ok None
  /\ calculate_current_roas 2500 500 = Ok (Some (2500 / 500))
  /\ calculate_current_cpp 500 0 = Ok None
  /\ calculate_current_cpp 500 20 = Ok (Some (500 / 20)).
Proof.
  split; [| split; [| split]].
  - apply (proj1 (current_metrics_spec 2500 0 0)). reflexivity.
  - apply (proj1 (proj2 (current_metrics_spec 2500 500 20))). discriminate.
  - apply (proj1 (proj2 (proj2 (current_metrics_spec 500 500 0)))).
    reflexivity.
  - apply (proj2 (proj2 (proj2 (current_metrics_spec 2500 500 20)))).
    discriminate.
Defined.

(** C6.  On prices that are not negative and a pre-show share within
    [0, 100], [calculate_avg_ticket_price] returns
    [pre * mix / 100 + post * (100 - mix) / 100]; on every other input, and
    so for a share of 150, it raises [ValueError] and returns nothing, and
    the derivation that starts with it produces no output either. *)
Theorem avg_ticket_price_spec (pre post mix : Q) :
  (0 <= pre -> 0 <= post -> 0 <= mix <= 100 ->
     calculate_avg_ticket_price pre post mix
     = Ok (pre * mix / 100 + post * (100 - mix) / 100))
  /\ (~ (0 <= pre /\ 0 <= post /\ 0 <= mix <= 100) ->
      exists msg,
        calculate_avg_ticket_price pre post mix = Raise (ValueError msg))
  /\ calculate_avg_ticket_price pre post 150
     = Raise (ValueError "Pre-show sales mix must be between 0 and 100")
  /\ (forall i : inputs,
        sales_mix_pre i = 150 ->
        current_values i
        = Raise (ValueError "Pre-show sales mix must be between 0 and 100")).
Proof.
  split; [| split; [| split]].
  - apply avg_ticket_price_ok.
  - intros Hbad. unfold calculate_avg_ticket_price.
    destruct (negb (Qle_bool 0 mix && Qle_bool mix 100)) eqn:Emix;
      [eexists; reflexivity |].
    destruct (Qlt_bool pre 0 || Qlt_bool post 0) eqn:Eprice;
      [eexists; reflexivity |].
    exfalso. apply Hbad.
    apply percentage_guard in Emix.
    apply orb_false_iff in Eprice as [Hpre Hpost].
    apply Qlt_bool_false_iff in Hpre, Hpost. tauto.
  - reflexivity.
  - intros i Hmix. unfold current_values. rewrite Hmix. reflexivity.
Qed.

Lemma avg_ticket_price_spec_witness :
  calculate_avg_ticket_price 25 50 75
    = Ok (25 * 75 / 100 + 50 * (100 - 75) / 100)
  /\ exists msg,
       calculate_avg_ticket_price (-1) 50 75 = Raise (ValueError msg).
Proof.
  split.
  - apply (proj1 (avg_ticket_price_spec 25 50 75)).
    + discriminate.
    + discriminate.
    + split; discriminate.
  - apply (proj1 (proj2 (avg_ticket_price_spec (-1) 50 75))).
    intros (H & _). apply H. reflexivity.
Defined.

(** C9 (as amended).  On valid input the average ticket price, taken in
    exact arithmetic, lies between the smaller and the larger of the two
    prices, bounds included. *)
Theorem avg_ticket_price_between (pre post mix : Q) :
  0 <= pre -> 0 <= post -> 0 <= mix <= 100 ->
  exists v,
    calculate_avg_ticket_price pre post mix = Ok v
    /\ Qmin pre post <= v <= Qmax pre post.
Proof.
  intros Hpre Hpost Hmix.
  exists (pre * mix / 100 + post * (100 - mix) / 100).
  split; [apply avg_ticket_price_ok; assumption |].
  destruct (Qlt_le_dec post pre) as [Hlt | Hle].
  - rewrite (Q.min_r pre post), (Q.max_l pre post) by lra.
    percent. split; nra.
  - rewrite (Q.min_l pre post), (Q.max_r pre post) by lra.
    percent. split; nra.
Qed.

Lemma avg_ticket_price_between_witness :
  exists v,
    calculate_avg_ticket_price 25 50 75 = Ok v
    /\ Qmin 25 50 <= v <= Qmax 25 50.
Proof.
  apply (avg_ticket_price_between 25 50 75).
  - discriminate.
  - discriminate.
  - split; discriminate.
Defined.

(** C3 (as amended).  With costs, prices, capacity and number of events
    fixed and not negative, raising the attendance percentage within
    [0, 100] never raises the break-even CPP, and never lowers the
    break-even ROAS, which is revenue over costs. *)
Theorem breakeven_monotone_in_attendance (tfc ec epm cap avg a1 a2 : Q) :
  0 <= tfc -> 0 <= ec -> 0 <= epm -> 0 <= cap -> 0 <= avg ->
  0 <= a1 -> a1 <= a2 -> a2 <= 100 ->
  exists roas1 cpp1 roas2 cpp2,
    calculate_threshold_metrics a1 avg cap epm tfc ec = Ok (roas1, cpp1)
    /\ calculate_threshold_metrics a2 avg cap epm tfc ec = Ok (roas2, cpp2)
    /\ pf_le cpp2 cpp1
    /\ pf_le roas1 roas2.
Proof.
  intros Htfc Hec Hepm Hcap Havg H1 H12 H2.
  unfold calculate_threshold_metrics.
  rewrite !projected_revenue_ok by (try split; lra). cbn [bind].
  rewrite !breakeven_roas_eq. cbn [bind].
  rewrite !breakeven_cpp_eq. cbn [bind].
  do 4 eexists. split; [reflexivity | split; [reflexivity |]].
  assert (Hd : 0 <= tfc + ec * epm).
  { assert (0 <= ec * epm) by (apply Qmult_le_0_compat; assumption). lra. }
  split.
  - apply guarded_ratio_antitone; [exact Hd |].
    apply tickets_monotone; assumption.
  - destruct (Qlt_bool 0 (tfc + ec * epm)) eqn:Epos; [| exact I].
    apply Qlt_bool_iff in Epos. cbn [pf_le].
    apply Qdiv_le_num; [exact Epos |].
    apply revenue_monotone; assumption.
Qed.

Lemma breakeven_monotone_in_attendance_witness :
  exists roas1 cpp1 roas2 cpp2,
    calculate_threshold_metrics 40 31.25 200 1 5000 1000 = Ok (roas1, cpp1)
    /\ calculate_threshold_metrics 50 31.25 200 1 5000 1000 = Ok (roas2, cpp2)
    /\ pf_le cpp2 cpp1
    /\ pf_le roas1 roas2.
Proof.
  apply (breakeven_monotone_in_attendance 5000 1000 1 200 31.25 40 50);
    discriminate.
Defined.

(** C3, the claim as it was stated, fails: in the scenario of the
    specification the break-even ROAS at 50% attendance is above the one at
    40%. *)
Lemma breakeven_roas_rises_with_attendance :
  exists roas1 cpp1 roas2 cpp2,
    calculate_threshold_metrics 40 31.25 200 1 5000 1000 = Ok (roas1, cpp1)
    /\ calculate_threshold_metrics 50 31.25 200 1 5000 1000 = Ok (roas2, cpp2)
    /\ ~ pf_le roas2 roas1.
Proof.
  do 4 eexists. split; [reflexivity | split; [reflexivity |]].
  cbn [pf_le]. intros H. apply H. reflexivity.
Qed.

(** C2.  On the scenario above the derivation succeeds with average ticket
    price 31.25, total fixed costs 5000, projected revenue 2500, break-even
    ROAS 2500/6000 and break-even CPP 6000/80 = 75. *)
Theorem scenario_values :
  exists o,
    current_values scenario = Ok o
    /\ avg_ticket_price o == 31.25
    /\ total_fixed_costs o == 5000
    /\ projected_revenue o == 2500
    /\ pf_eq (breakeven_roas o) (Fin (2500 / 6000))
    /\ pf_eq (breakeven_cpp o) (Fin (6000 / 80))
    /\ pf_eq (breakeven_cpp o) (Fin 75).
Proof.
  eexists. split; [vm_compute; reflexivity |].
  cbn [avg_ticket_price total_fixed_costs projected_revenue
       breakeven_roas breakeven_cpp pf_eq].
  repeat (split; [reflexivity |]). reflexivity.
Qed.

(** C4 (as amended).  At 0% attendance a valid input has projected revenue
    0; the break-even ROAS of that revenue is 0 when the costs
    [total_fixed_costs + event_cost * events_per_month] are not zero, and
    [float('inf')] when they are zero. *)
Theorem zero_attendance_breakeven_roas (avg cap epm tfc ec : Q) :
  0 <= cap -> 0 <= epm -> 0 <= tfc -> 0 <= ec ->
  exists rev,
    calculate_projected_revenue avg cap 0 epm = Ok rev
    /\ rev == 0
    /\ (~ tfc + ec * epm == 0 ->
        exists r,
          calculate_breakeven_roas tfc ec epm rev = Ok (Fin r) /\ r == 0)
    /\ (tfc + ec * epm == 0 ->
        calculate_breakeven_roas tfc ec epm rev = Ok Inf).
Proof.
  intros Hcap Hepm Htfc Hec.
  eexists. split; [apply projected_revenue_ok; try split; lra |].
  assert (Hd : 0 <= tfc + ec * epm).
  { assert (0 <= ec * epm) by (apply Qmult_le_0_compat; assumption). lra. }
  split; [| split].
  - percent. ring.
  - intros Hne. eexists. split.
    + apply breakeven_roas_pos.
      destruct (Qlt_le_dec 0 (tfc + ec * epm)) as [Hpos | Hle];
        [exact Hpos | exfalso; apply Hne; lra].
    + percent. ring.
  - intros Hz. apply breakeven_roas_nonpos. lra.
Qed.

Lemma zero_attendance_breakeven_roas_witness :
  exists rev,
    calculate_projected_revenue 31.25 200 0 1 = Ok rev
    /\ rev == 0
    /\ (~ 5000 + 1000 * 1 == 0 ->
        exists r,
          calculate_breakeven_roas 5000 1000 1 rev = Ok (Fin r) /\ r == 0)
    /\ (5000 + 1000 * 1 == 0 ->
        calculate_breakeven_roas 5000 1000 1 rev = Ok Inf).
Proof.
  apply (zero_attendance_breakeven_roas 31.25 200 1 5000 1000); discriminate.
Defined.

(** C4, the claim as it was stated, fails: with costs 6000 and no
    attendance the break-even ROAS is the number 0, not [float('inf')]. *)
Lemma zero_attendance_roas_is_not_inf :
  exists rev,
    calculate_projected_revenue 31.25 200 0 1 = Ok rev
    /\ rev == 0
    /\ ~ 5000 + 1000 * 1 == 0
    /\ calculate_breakeven_roas 5000 1000 1 rev <> Ok Inf.
Proof.
  eexists. split; [reflexivity |].
  split; [reflexivity |]. split; discriminate.
Qed.

(** C8 (as amended).  [calculate_total_fixed_costs] raises [ValueError] on
    a negative number of events and [calculate_projected_revenue] on a
    negative capacity or a negative number of events; a capacity or a
    number of events equal to 0 is accepted and gives the result 0. *)
Theorem negative_capacity_or_events_rejected (fc avg cap att epm : Q) :
  (epm < 0 ->
     exists msg, calculate_total_fixed_costs fc epm = Raise (ValueError msg))
  /\ (cap < 0 \/ epm < 0 ->
     exists msg,
       calculate_projected_revenue avg cap att epm = Raise (ValueError msg))
  /\ (0 <= fc ->
     exists v, calculate_total_fixed_costs fc 0 = Ok v /\ v == 0)
  /\ (0 <= att <= 100 -> 0 <= epm ->
     exists v, calculate_projected_revenue avg 0 att epm = Ok v /\ v == 0)
  /\ (0 <= att <= 100 -> 0 <= cap ->
     exists v, calculate_projected_revenue avg cap att 0 = Ok v /\ v == 0).
Proof.
  split; [| split; [| split; [| split]]].
  - intros Hepm. apply Qlt_bool_iff in Hepm.
    unfold calculate_total_fixed_costs.
    destruct (Qlt_bool fc 0); [eexists; reflexivity |].
    rewrite Hepm. eexists; reflexivity.
  - intros Hneg. unfold calculate_projected_revenue.
    destruct (negb (Qle_bool 0 att && Qle_bool att 100));
      [eexists; reflexivity |].
    destruct (Qlt_bool cap 0) eqn:Ecap; [eexists; reflexivity |].
    destruct (Qlt_bool epm 0) eqn:Eepm; [eexists; reflexivity |].
    apply Qlt_bool_false_iff in Ecap, Eepm. exfalso.
    destruct Hneg; lra.
  - intros Hfc. apply Qlt_bool_false_iff in Hfc.
    unfold calculate_total_fixed_costs. rewrite Hfc. cbn.
    eexists. split; [reflexivity | ring].
  - intros Hatt Hepm. eexists.
    split; [apply projected_revenue_ok; [exact Hatt | lra | exact Hepm] |].
    percent. ring.
  - intros Hatt Hcap. eexists.
    split; [apply projected_revenue_ok; [exact Hatt | exact Hcap | lra] |].
    percent. ring.
Qed.

Lemma negative_capacity_or_events_rejected_witness :
  (exists msg, calculate_total_fixed_costs 5000 (-1) = Raise (ValueError msg))
  /\ (exists msg,
        calculate_projected_revenue 31.25 (-200) 40 1
        = Raise (ValueError msg))
  /\ (exists v, calculate_total_fixed_costs 5000 0 = Ok v /\ v == 0)
  /\ (exists v, calculate_projected_revenue 31.25 0 40 1 = Ok v /\ v == 0)
  /\ (exists v, calculate_projected_revenue 31.25 200 40 0 = Ok v /\ v == 0).
Proof.
  split; [| split; [| split; [| split]]].
  - apply (proj1 (negative_capacity_or_events_rejected 5000 0 0 0 (-1))).
    reflexivity.
  - apply (proj1 (proj2
      (negative_capacity_or_events_rejected 0 31.25 (-200) 40 1))).
    left. reflexivity.
  - apply (proj1 (proj2 (proj2
      (negative_capacity_or_events_rejected 5000 0 0 0 0)))).
    discriminate.
  - apply (proj1 (proj2 (proj2 (proj2
      (negative_capacity_or_events_rejected 0 31.25 0 40 1)))));
      [split |]; discriminate.
  - apply (proj2 (proj2 (proj2 (proj2
      (negative_capacity_or_events_rejected 0 31.25 200 40 1)))));
      [split |]; discriminate.
Defined.

(** C8, the claim as it was stated, fails: a capacity of 0 and a number of
    events of 0 pass the checks and a result is computed. *)
Lemma zero_capacity_or_events_accepted :
  (exists v, calculate_projected_revenue 31.25 0 40 1 = Ok v)
  /\ (exists v, calculate_projected_revenue 31.25 200 40 0 = Ok v)
  /\ (exists v, calculate_total_fixed_costs 5000 0 = Ok v).
Proof.
  split; [| split]; eexists; reflexivity.
Qed.

(** *** The threshold table *)

Lemma breakeven_roas_total (tfc ec epm rev : Q) :
  exists v, calculate_breakeven_roas tfc ec epm rev = Ok v.
Proof. eexists. apply breakeven_roas_eq. Qed.

Lemma breakeven_cpp_total (tfc ec epm cap att : Q) :
  exists v, calculate_breakeven_cpp tfc ec epm cap att = Ok v.
Proof. eexists. apply breakeven_cpp_eq. Qed.

Lemma threshold_metrics_ok (level avg cap epm tfc ec : Q) :
  0 <= level <= 100 -> 0 <= cap -> 0 <= epm ->
  exists m,
    calculate_threshold_metrics level avg cap epm tfc ec = Ok m
    /\ row_recomputed avg cap epm tfc ec
         {| row_level := level; row_roas := fst m; row_cpp := snd m |}.
Proof.
  intros Hlevel Hcap Hepm.
  unfold calculate_threshold_metrics, row_recomputed.
  cbn [row_level row_roas row_cpp].
  rewrite projected_revenue_ok by assumption. cbn [bind].
  destruct (breakeven_roas_total tfc ec epm (avg * cap * (level / 100) * epm))
    as [roas Hroas].
  destruct (breakeven_cpp_total tfc ec epm cap level) as [cpp Hcpp].
  rewrite Hroas, Hcpp. cbn [bind].
  exists (roas, cpp). split; [reflexivity |].
  eexists. repeat split; eassumption.
Qed.

(** The loop appends one recomputed row per level, in the order of the
    levels, to the rows it starts from. *)
Lemma threshold_loop_ok (avg cap epm tfc ec : Q) (levels : list Q) :
  0 <= cap -> 0 <= epm ->
  Forall (fun level => 0 <= level <= 100) levels ->
  forall acc,
  exists rows,
    threshold_loop levels acc avg cap epm tfc ec = Ok (acc ++ rows)
    /\ map row_level rows = levels
    /\ Forall (row_recomputed avg cap epm tfc ec) rows.
Proof.
  intros Hcap Hepm Hlevels.
  induction Hlevels as [| level rest Hlevel _ IH]; intros acc.
  - exists []. cbn. rewrite app_nil_r. repeat split. constructor.
  - destruct (threshold_metrics_ok level avg cap epm tfc ec Hlevel Hcap Hepm)
      as (m & Hm & Hrow).
    cbn [threshold_loop]. rewrite Hm. cbn [bind].
    destruct (IH (acc ++ [{| row_level := level;
                             row_roas := fst m; row_cpp := snd m |}]))
      as (rows & Hloop & Hmap & Hall).
    eexists (_ :: rows). rewrite Hloop, <- app_assoc. cbn [app map row_level].
    split; [reflexivity |]. split; [rewrite Hmap; reflexivity |].
    constructor; assumption.
Qed.

(** The loop taken by itself, on any values with a capacity and a number
    of events that are not negative: six rows, for the levels 40 to 90 in
    that order, each with the two metrics recomputed at its level. *)
Lemma threshold_table_ok (avg cap epm tfc ec : Q) :
  0 <= cap -> 0 <= epm ->
  exists rows,
    threshold_table avg cap epm tfc ec = Ok rows
    /\ map row_level rows = [40; 50; 60; 70; 80; 90]
    /\ Forall (row_recomputed avg cap epm tfc ec) rows.
Proof.
  intros Hcap Hepm.
  destruct (threshold_loop_ok avg cap epm tfc ec attendance_levels Hcap Hepm)
    with (acc := @nil threshold_row) as (rows & Hloop & Hmap & Hall).
  { unfold attendance_levels.
    repeat (constructor; [split; discriminate |]). constructor. }
  exists rows. split; [exact Hloop |]. split; assumption.
Qed.

Lemma bind_ok {A B : Type} (r : result A) (k : A -> result B) (b : B) :
  bind r k = Ok b -> exists a, r = Ok a /\ k a = Ok b.
Proof.
  destruct r as [a | e]; cbn; [| discriminate].
  intros H. exists a. split; [reflexivity | exact H].
Qed.

Lemma projected_revenue_inv (avg cap att epm rev : Q) :
  calculate_projected_revenue avg cap att epm = Ok rev ->
  0 <= att <= 100 /\ 0 <= cap /\ 0 <= epm.
Proof.
  unfold calculate_projected_revenue.
  destruct (negb (Qle_bool 0 att && Qle_bool att 100)) eqn:Eatt;
    [discriminate |].
  destruct (Qlt_bool cap 0) eqn:Ecap; [discriminate |].
  destruct (Qlt_bool epm 0) eqn:Eepm; [discriminate |].
  intros _. apply percentage_guard in Eatt.
  apply Qlt_bool_false_iff in Ecap, Eepm. tauto.
Qed.

(** *** Properties of [save_scenario] *)

Lemma save_scenario_taken (now name : string) (values : ref)
    (st : session_state) :
  is_Some (scenarios st !! name) ->
  save_scenario now name values st = (false, st).
Proof.
  intros [r Hr]. unfold save_scenario. rewrite Hr. reflexivity.
Qed.

Lemma save_scenario_free (now name : string) (values : ref)
    (st : session_state) (d : pydict) :
  scenarios st !! name = None ->
  heap st !! values = Some d ->
  unshared values st ->
  stored (save_scenario now name values st).2
  = <[name := <["saved_at" := PyStr now]> d]> (stored st).
Proof.
  intros Hfree Hd Hun. unfold save_scenario. rewrite Hfree. cbn [snd].
  apply map_eq. intros n. unfold stored. cbn [heap scenarios].
  rewrite lookup_omap.
  destruct (decide (name = n)) as [-> | Hne].
  - rewrite !lookup_insert_eq. cbn.
    rewrite lookup_alter_eq, Hd. reflexivity.
  - rewrite !lookup_insert_ne by exact Hne.
    rewrite lookup_omap.
    destruct (scenarios st !! n) as [r |] eqn:Hn; [| reflexivity].
    cbn. apply lookup_alter_ne.
    intros ->. exact (Hun n Hn).
Qed.

(** The object [new_dict] returns is shared with no saved scenario. *)
Lemma new_dict_unshared (d : pydict) (st : session_state) :
  well_formed st ->
  heap (new_dict d st).2 !! (new_dict d st).1 = Some d
  /\ unshared (new_dict d st).1 (new_dict d st).2.
Proof.
  intros Hwf. unfold new_dict. cbn [fst snd heap scenarios]. split.
  - apply lookup_insert_eq.
  - intros n Hn. apply Hwf in Hn.
    apply elem_of_dom in Hn. exact (is_fresh (dom (heap st)) Hn).
Qed.

Lemma name_taken_spec (name : string) (st : Objects.state)
    (m : Objects.dict) :
  Objects.objects st !! Objects.mapping st = Some m ->
  Objects.name_taken name st = bool_decide (is_Some (m !! name)).
Proof. intros Hm. unfold Objects.name_taken. rewrite Hm. reflexivity. Qed.

(** [Scenarios.save_scenario] is [Objects.save_scenario] on the states in
    which the mapping is an object of its own and [values] is another. *)
Lemma save_scenario_embed (now name : string) (values m : positive)
    (st : session_state) :
  values <> m ->
  Objects.save_scenario now name values (Objects.embed m st)
  = ((save_scenario now name values st).1,
     Objects.embed m (save_scenario now name values st).2).
Proof.
  intros Hne. unfold Objects.save_scenario, save_scenario.
  rewrite (name_taken_spec name _ (Objects.Ref <$> scenarios st))
    by apply lookup_insert_eq.
  rewrite lookup_fmap.
  destruct (scenarios st !! name) as [r |] eqn:Hname; cbn [fmap option_fmap
    option_map].
  - rewrite bool_decide_eq_true_2 by (eexists; reflexivity). reflexivity.
  - rewrite bool_decide_eq_false_2 by (intros [x Hx]; discriminate).
    cbn [fst snd]. unfold Objects.embed.
    cbn [Objects.objects Objects.mapping heap scenarios].
    f_equal. f_equal.
    rewrite alter_insert_ne by exact Hne.
    rewrite alter_insert_eq, fmap_insert. f_equal.
    apply map_eq. intros r. rewrite lookup_fmap.
    destruct (decide (values = r)) as [-> | Hr].
    + rewrite !lookup_alter_eq, lookup_fmap.
      destruct (heap st !! r) as [d |]; cbn; [| reflexivity].
      rewrite fmap_insert. reflexivity.
    + rewrite !lookup_alter_ne by exact Hr.
      rewrite lookup_fmap. reflexivity.
Qed.




(** The same in the [Scenarios] model: saving the dict of ["base"] again
    under a second name stamps ["base"] with the new time. *)
Lemma save_scenario_restamps_shared_dict :
  exists st',
    save_scenario "2024-05-02 09:30:00" "copy" 1%positive one_saved
    = (true, st')
    /\ stored one_saved !! "base" = Some base_dict
    /\ stored st' !! "base"
       = Some (<["saved_at" := PyStr "2024-05-02 09:30:00"]> base_dict)
    /\ stored st' !! "base" <> stored one_saved !! "base".
Proof.
  eexists. split; [reflexivity |].
  split; [reflexivity |]. split; [reflexivity |].
  intros H.
  apply (f_equal (fun o : option pydict => o ≫= (.!! "saved_at"))) in H.
  vm_compute in H. discriminate.
Qed.

(** ** The variants *)

(** *** [test_thresholds.py] *)

Lemma threshold_at_eq (fc ec cap pre post mix a : Q) :
  TestThresholds.threshold_at fc ec cap pre post mix a
  = let total_revenue :=
      cap * a / 100 * (pre * (mix / 100) + post * (1 - mix / 100)) in
    let attendance_count := cap * a / 100 in
    Ok (if Qlt_bool 0 total_revenue
        then Fin ((fc + ec) / total_revenue) else Inf,
        if Qlt_bool 0 attendance_count
        then Fin ((fc + ec) / attendance_count) else Inf).
Proof.
  unfold TestThresholds.threshold_at. rewrite !pydiv_100. cbn [bind].
  destruct (Qlt_bool 0 (cap * a / 100 * _)) eqn:Er.
  - apply Qlt_bool_iff in Er. rewrite pydiv_ok by lra. cbn [bind].
    destruct (Qlt_bool 0 (cap * a / 100)) eqn:Ec; [| reflexivity].
    apply Qlt_bool_iff in Ec. rewrite pydiv_ok by lra. reflexivity.
  - cbn [bind].
    destruct (Qlt_bool 0 (cap * a / 100)) eqn:Ec; [| reflexivity].
    apply Qlt_bool_iff in Ec. rewrite pydiv_ok by lra. reflexivity.
Qed.

(** X24.  In [test_thresholds.py] both metrics fall, or stay, as the attendance
    grows: there the sentence of the specification holds as written. *)
Lemma test_thresholds_antitone (fc ec cap pre post mix a1 a2 : Q) :
  0 <= fc -> 0 <= ec -> 0 <= cap -> 0 <= pre -> 0 <= post ->
  0 <= mix <= 100 -> a1 <= a2 ->
  exists roas1 cpp1 roas2 cpp2,
    TestThresholds.threshold_at fc ec cap pre post mix a1 = Ok (roas1, cpp1)
    /\ TestThresholds.threshold_at fc ec cap pre post mix a2
       = Ok (roas2, cpp2)
    /\ pf_le roas2 roas1
    /\ pf_le cpp2 cpp1.
Proof.
  intros Hfc Hec Hcap Hpre Hpost Hmix Ha.
  rewrite !threshold_at_eq. cbv zeta.
  do 4 eexists. split; [reflexivity | split; [reflexivity |]].
  assert (Hcount : cap * a1 / 100 <= cap * a2 / 100) by (percent; nra).
  assert (Hprice : 0 <= pre * (mix / 100) + post * (1 - mix / 100)).
  { assert (0 <= pre * mix) by (apply Qmult_le_0_compat; lra).
    assert (0 <= post * (100 - mix)) by (apply Qmult_le_0_compat; lra).
    percent. lra. }
  split; apply guarded_ratio_antitone; try lra.
  apply Qmult_le_compat_r; assumption.
Qed.

(** And with no attendance its break-even ROAS is [float('inf')]. *)
Lemma test_thresholds_zero_attendance (fc ec cap pre post mix : Q) :
  TestThresholds.threshold_at fc ec cap pre post mix 0 = Ok (Inf, Inf).
Proof.
  rewrite threshold_at_eq. cbv zeta.
  assert (Ec : Qlt_bool 0 (cap * 0 / 100) = false).
  { apply Qlt_bool_false_iff. percent.
    assert (E : cap * 0 * (1 # 100) == 0) by ring. rewrite E. discriminate. }
  assert (Er : Qlt_bool 0 (cap * 0 / 100
                 * (pre * (mix / 100) + post * (1 - mix / 100))) = false).
  { apply Qlt_bool_false_iff. percent.
    assert (E : cap * 0 * (1 # 100)
                * (pre * (mix * (1 # 100)) + post * (1 - mix * (1 # 100)))
                == 0) by ring.
    rewrite E. discriminate. }
  rewrite Ec, Er. reflexivity.
Qed.

(** On the scenario of the specification the two scripts disagree on the
    break-even ROAS at 40%: 6000/2500 here, 2500/6000 in [app.py]. *)
Lemma test_thresholds_scenario :
  exists roas cpp,
    TestThresholds.threshold_at 5000 1000 200 25 50 75 40 = Ok (roas, cpp)
    /\ pf_eq roas (Fin (6000 / 2500))
    /\ pf_eq cpp (Fin 75).
Proof.
  do 2 eexists. split; [vm_compute; reflexivity |].
  split; reflexivity.
Qed.

(** *** [streamlit_app.py] *)

(** Its current metrics are the number 0, not [None], on a zero
    denominator. *)
Lemma streamlit_current_metrics_zero (rev ad : Q) :
  StreamlitApp.calculate_current_roas 0 rev = Ok 0
  /\ StreamlitApp.calculate_current_cpp ad 0 = Ok 0.
Proof. split; reflexivity. Qed.

(** Its break-even ROAS is 0, not [float('inf')], when there are no fixed
    costs, and a rounded ratio of costs otherwise: 1.2 on the scenario of
    the specification. *)
Lemma streamlit_breakeven_roas_values (ec epm : Q) :
  StreamlitApp.calculate_breakeven_roas 0 ec epm = Ok 0
  /\ exists r,
       StreamlitApp.calculate_breakeven_roas 5000 1000 1 = Ok r
       /\ r == 1.2.
Proof.
  split.
  - unfold StreamlitApp.calculate_breakeven_roas.
    assert (E : Qeq_bool (0 * epm) 0 = true) by (apply Qeq_bool_iff; ring).
    rewrite E. reflexivity.
  - eexists. split; [vm_compute; reflexivity | reflexivity].
Qed.

(** Its average price takes the post-show share as an input of its own;
    with shares that do not add up to 100 the result leaves the interval
    of the two prices. *)
Lemma streamlit_average_price_unbounded :
  exists v,
    StreamlitApp.calculate_average_ticket_price 25 50 75 75 = Ok v
    /\ Qmax 25 50 < v.
Proof.
  eexists. split; [vm_compute; reflexivity | reflexivity].
Qed.

(** *** Binary64 *)

(** The scenario of the specification, replayed on binary64 numbers, gives
    the same figures: no rounding error shows in it. *)
Lemma scenario_values_binary64 :
  Float64.calculate_avg_ticket_price 25 50 75 = Ok 31.25%float
  /\ Float64.calculate_total_fixed_costs 5000 1 = Ok 5000%float
  /\ Float64.calculate_projected_revenue 31.25 200 40 1 = Ok 2500%float
  /\ Float64.calculate_breakeven_roas 5000 1000 1 2500
     = Ok (2500 / 6000)%float
  /\ Float64.calculate_breakeven_cpp 5000 1000 1 200 40 = Ok 75%float.
Proof.
  repeat split; vm_compute; reflexivity.
Qed.

(** C9, the claim as it was stated, fails on binary64 numbers.  With both
    prices 19.99 and a pre-show share of 20 the two terms are
    3.9979999999999993 and 15.991999999999997, and their sum
    19.989999999999995 is below both prices. *)
Lemma avg_ticket_price_binary64_below_prices :
  Float64.pydiv (19.99 * 20) 100 = Ok 3.9979999999999993%float
  /\ Float64.pydiv (19.99 * (100 - 20)) 100 = Ok 15.991999999999997%float
  /\ Float64.calculate_avg_ticket_price 19.99 19.99 20
     = Ok 19.989999999999995%float
  /\ (19.989999999999995 <? 19.99)%float = true.
Proof.
  repeat split; vm_compute; reflexivity.
Qed.

(** ** Further properties of the engine *)

(** X1.  [calculate_breakeven_cpp] checks nothing and still never raises: it
    returns the quotient of the costs by the projected tickets when these
    are positive and [float('inf')] otherwise, so with no attendance, no
    capacity or no events. *)
Theorem breakeven_cpp_spec (tfc ec epm cap att : Q) :
  let projected_tickets_sold := cap * (att / 100) * epm in
  (0 < projected_tickets_sold ->
     calculate_breakeven_cpp tfc ec epm cap att
     = Ok (Fin ((tfc + ec * epm) / projected_tickets_sold)))
  /\ (projected_tickets_sold <= 0 ->
      calculate_breakeven_cpp tfc ec epm cap att = Ok Inf)
  /\ (att == 0 \/ cap == 0 \/ epm == 0 ->
      calculate_breakeven_cpp tfc ec epm cap att = Ok Inf).
Proof.
  cbv zeta. split; [| split].
  - apply breakeven_cpp_pos.
  - apply breakeven_cpp_nonpos.
  - intros Hz. apply breakeven_cpp_nonpos.
    assert (E : cap * (att / 100) * epm == 0);
      [| rewrite E; discriminate].
    percent. destruct Hz as [-> | [-> | ->]]; ring.
Qed.

Lemma breakeven_cpp_spec_witness :
  calculate_breakeven_cpp 5000 1000 1 200 40
    = Ok (Fin ((5000 + 1000 * 1) / (200 * (40 / 100) * 1)))
  /\ calculate_breakeven_cpp 5000 1000 1 (-200) 40 = Ok Inf
  /\ calculate_breakeven_cpp 5000 1000 1 200 0 = Ok Inf.
Proof.
  split; [| split].
  - apply (proj1 (breakeven_cpp_spec 5000 1000 1 200 40)). reflexivity.
  - apply (proj1 (proj2 (breakeven_cpp_spec 5000 1000 1 (-200) 40))).
    discriminate.
  - apply (proj2 (proj2 (breakeven_cpp_spec 5000 1000 1 200 0))).
    left. reflexivity.
Defined.

Lemma projected_profit_ok (rev tfc ec epm ad : Q) :
  0 <= ec -> 0 <= epm -> 0 <= ad ->
  calculate_projected_profit rev tfc ec epm ad
  = Ok (rev - tfc - ec * epm - ad).
Proof.
  intros Hec Hepm Had. unfold calculate_projected_profit. cbn [existsb].
  apply Qlt_bool_false_iff in Hec, Hepm, Had. rewrite Hec, Hepm, Had.
  reflexivity.
Qed.

(** X2.  [calculate_projected_profit] returns revenue minus fixed costs, event
    costs and ad spend, unrounded and possibly negative, when event cost,
    number of events and ad spend are not negative, and raises
    [ValueError] when one of these three is; it looks at neither the
    revenue nor the fixed costs. *)
Theorem projected_profit_spec (rev tfc ec epm ad : Q) :
  (0 <= ec -> 0 <= epm -> 0 <= ad ->
     calculate_projected_profit rev tfc ec epm ad
     = Ok (rev - tfc - ec * epm - ad))
  /\ (ec < 0 \/ epm < 0 \/ ad < 0 ->
      calculate_projected_profit rev tfc ec epm ad
      = Raise (ValueError "Cost values cannot be negative")).
Proof.
  split; [apply projected_profit_ok |].
  intros Hneg. unfold calculate_projected_profit. cbn [existsb].
  destruct (Qlt_bool ec 0) eqn:Eec; [reflexivity |].
  destruct (Qlt_bool epm 0) eqn:Eepm; [reflexivity |].
  destruct (Qlt_bool ad 0) eqn:Ead; [reflexivity |].
  apply Qlt_bool_false_iff in Eec, Eepm, Ead. exfalso.
  destruct Hneg as [H | [H | H]]; lra.
Qed.

Lemma projected_profit_spec_witness :
  calculate_projected_profit 2500 (-5000) 1000 1 0
    = Ok (2500 - (-5000) - 1000 * 1 - 0)
  /\ calculate_projected_profit 2500 5000 1000 1 (-1)
     = Raise (ValueError "Cost values cannot be negative").
Proof.
  split.
  - apply (proj1 (projected_profit_spec 2500 (-5000) 1000 1 0));
      discriminate.
  - apply (proj2 (projected_profit_spec 2500 5000 1000 1 (-1))).
    right. right. reflexivity.
Defined.

(** X3.  The projected revenue of a valid call lies between 0 and the revenue
    of a sold-out month, [avg_ticket_price * venue_capacity *
    events_per_month], which it reaches at 100% attendance. *)
Theorem projected_revenue_bounds (avg cap att epm : Q) :
  0 <= avg -> 0 <= cap -> 0 <= epm -> 0 <= att <= 100 ->
  exists rev full,
    calculate_projected_revenue avg cap att epm = Ok rev
    /\ calculate_projected_revenue avg cap 100 epm = Ok full
    /\ full == avg * cap * epm
    /\ 0 <= rev <= full.
Proof.
  intros Havg Hcap Hepm Hatt.
  rewrite !projected_revenue_ok by (try split; lra).
  do 2 eexists. split; [reflexivity | split; [reflexivity |]].
  assert (H : 0 <= avg * (cap * epm))
    by (repeat apply Qmult_le_0_compat; assumption).
  split; [percent; ring |]. percent. split; nra.
Qed.

Lemma projected_revenue_bounds_witness :
  exists rev full,
    calculate_projected_revenue 31.25 200 40 1 = Ok rev
    /\ calculate_projected_revenue 31.25 200 100 1 = Ok full
    /\ full == 31.25 * 200 * 1
    /\ 0 <= rev <= full.
Proof.
  apply (projected_revenue_bounds 31.25 200 40 1);
    try split; discriminate.
Defined.

(** *** The six calculations as a whole *)

Lemma only_value_error_ok {A : Type} (a : A) : only_value_error (Ok a).
Proof. intros e H. discriminate. Qed.

Lemma only_value_error_raise {A : Type} (msg : string) :
  only_value_error (@Raise A (ValueError msg)).
Proof. intros e H. injection H as <-. eexists; reflexivity. Qed.

Lemma only_value_error_bind {A B : Type} (r : result A)
    (k : A -> result B) :
  only_value_error r -> (forall a, only_value_error (k a)) ->
  only_value_error (bind r k).
Proof.
  intros Hr Hk. destruct r as [a | e]; cbn [bind]; [apply Hk |].
  intros e' H. injection H as <-. apply Hr. reflexivity.
Qed.

Lemma total_fixed_costs_ok (fc epm : Q) :
  0 <= fc -> 0 <= epm -> calculate_total_fixed_costs fc epm = Ok (fc * epm).
Proof.
  intros Hfc Hepm. unfold calculate_total_fixed_costs.
  apply Qlt_bool_false_iff in Hfc, Hepm. rewrite Hfc, Hepm. reflexivity.
Qed.

Lemma avg_ticket_price_inv (pre post mix v : Q) :
  calculate_avg_ticket_price pre post mix = Ok v ->
  0 <= mix <= 100 /\ 0 <= pre /\ 0 <= post.
Proof.
  unfold calculate_avg_ticket_price.
  destruct (negb (Qle_bool 0 mix && Qle_bool mix 100)) eqn:Emix;
    [discriminate |].
  destruct (Qlt_bool pre 0 || Qlt_bool post 0) eqn:Eprice; [discriminate |].
  intros _. apply percentage_guard in Emix.
  apply orb_false_iff in Eprice as [Hpre Hpost].
  apply Qlt_bool_false_iff in Hpre, Hpost. tauto.
Qed.

Lemma total_fixed_costs_inv (fc epm v : Q) :
  calculate_total_fixed_costs fc epm = Ok v -> 0 <= fc /\ 0 <= epm.
Proof.
  unfold calculate_total_fixed_costs.
  destruct (Qlt_bool fc 0) eqn:Efc; [discriminate |].
  destruct (Qlt_bool epm 0) eqn:Eepm; [discriminate |].
  intros _. apply Qlt_bool_false_iff in Efc, Eepm. tauto.
Qed.

Lemma projected_profit_inv (rev tfc ec epm ad v : Q) :
  calculate_projected_profit rev tfc ec epm ad = Ok v ->
  0 <= ec /\ 0 <= epm /\ 0 <= ad.
Proof.
  unfold calculate_projected_profit. cbn [existsb].
  destruct (Qlt_bool ec 0) eqn:Eec; [discriminate |].
  destruct (Qlt_bool epm 0) eqn:Eepm; [discriminate |].
  destruct (Qlt_bool ad 0) eqn:Ead; [discriminate |].
  intros _. apply Qlt_bool_false_iff in Eec, Eepm, Ead. tauto.
Qed.

(** The six values on a valid input, field by field. *)
Lemma current_values_ok (i : inputs) :
  valid_inputs i ->
  let avg := ticket_price_pre i * sales_mix_pre i / 100
             + ticket_price_post i * (100 - sales_mix_pre i) / 100 in
  let tfc := fixed_costs i * events_per_month i in
  let rev := avg * venue_capacity i * (attendance_percentage i / 100)
             * events_per_month i in
  let costs := tfc + event_cost i * events_per_month i in
  let tickets := venue_capacity i * (attendance_percentage i / 100)
                 * events_per_month i in
  current_values i
  = Ok {| avg_ticket_price := avg; total_fixed_costs := tfc;
          projected_revenue := rev;
          projected_profit :=
            rev - tfc - event_cost i * events_per_month i - ad_spend i;
          breakeven_roas :=
            if Qlt_bool 0 costs then Fin (rev / costs) else Inf;
          breakeven_cpp :=
            if Qlt_bool 0 tickets then Fin (costs / tickets) else Inf |}.
Proof.
  intros (Hmix & Hpre & Hpost & Hfc & Hepm & Hatt & Hcap & Hec & Had).
  cbv zeta. unfold current_values.
  rewrite avg_ticket_price_ok by assumption. cbn [bind].
  rewrite total_fixed_costs_ok by assumption. cbn [bind].
  rewrite projected_revenue_ok by assumption. cbn [bind].
  rewrite projected_profit_ok by assumption. cbn [bind].
  rewrite breakeven_roas_eq. cbn [bind].
  rewrite breakeven_cpp_eq. cbn [bind].
  reflexivity.
Qed.

Lemma current_values_inv (i : inputs) (o : outputs) :
  current_values i = Ok o -> valid_inputs i.
Proof.
  unfold current_values. intros H.
  apply bind_ok in H as (avg & Havg & H).
  apply bind_ok in H as (tfc & Htfc & H).
  apply bind_ok in H as (rev & Hrev & H).
  apply bind_ok in H as (profit & Hprofit & _).
  apply avg_ticket_price_inv in Havg.
  apply total_fixed_costs_inv in Htfc.
  apply projected_revenue_inv in Hrev.
  apply projected_profit_inv in Hprofit.
  unfold valid_inputs. tauto.
Qed.

Lemma current_values_only_value_error (i : inputs) :
  only_value_error (current_values i).
Proof.
  unfold current_values.
  apply only_value_error_bind.
  { unfold calculate_avg_ticket_price.
    repeat (destruct (_ : bool);
            [apply only_value_error_raise |]).
    rewrite !pydiv_100. apply only_value_error_ok. }
  intros avg. apply only_value_error_bind.
  { unfold calculate_total_fixed_costs.
    repeat (destruct (_ : bool); [apply only_value_error_raise |]).
    apply only_value_error_ok. }
  intros tfc. apply only_value_error_bind.
  { unfold calculate_projected_revenue.
    repeat (destruct (_ : bool); [apply only_value_error_raise |]).
    rewrite pydiv_100. apply only_value_error_ok. }
  intros rev. apply only_value_error_bind.
  { unfold calculate_projected_profit.
    destruct (existsb _ _);
      [apply only_value_error_raise | apply only_value_error_ok]. }
  intros profit.
  rewrite breakeven_roas_eq, breakeven_cpp_eq. cbn [bind].
  apply only_value_error_ok.
Qed.

(** X4.  The six calculations at the head of the [try] block complete
    exactly on the inputs that pass their checks.  On every other input
    the first failing call raises [ValueError], never a
    [ZeroDivisionError], and the page shows the calculation error with its
    message. *)
Theorem current_values_valid (i : inputs) :
  (valid_inputs i -> exists o, current_values i = Ok o)
  /\ (~ valid_inputs i ->
      exists msg,
        current_values i = Raise (ValueError msg)
        /\ run_page i = CalculationError msg).
Proof.
  split.
  - intros Hvalid. eexists. apply current_values_ok, Hvalid.
  - intros Hbad. destruct (current_values i) as [o | e] eqn:E.
    + exfalso. apply Hbad. exact (current_values_inv i o E).
    + destruct (current_values_only_value_error i e E) as [msg ->].
      exists msg. split; [reflexivity |].
      unfold run_page, try_block. rewrite E. reflexivity.
Qed.

Lemma current_values_valid_witness :
  (exists o, current_values scenario = Ok o)
  /\ exists msg,
       current_values (with_attendance 101 scenario)
       = Raise (ValueError msg)
       /\ run_page (with_attendance 101 scenario) = CalculationError msg.
Proof.
  split.
  - apply (proj1 (current_values_valid scenario)).
    unfold valid_inputs. cbn. repeat split; discriminate.
  - apply (proj2 (current_values_valid (with_attendance 101 scenario))).
    unfold valid_inputs. cbn. intros (_ & _ & _ & _ & _ & [_ H] & _).
    apply H. reflexivity.
Defined.

(** *** The [try] block as a whole *)

Lemma current_roas_unbound :
  read_name names_bound_at_render "current_roas"
  = Stopped (NameError "current_roas").
Proof. vm_compute. reflexivity. Qed.

(** Once the six calculations are done, the profit paragraph ends the
    block. *)
Lemma try_block_stops (i : inputs) (o : outputs) :
  current_values i = Ok o ->
  try_block i = Stopped (NameError "current_roas").
Proof.
  intros H. unfold try_block. rewrite H. cbn [engine run_bind].
  change (read_name names_bound_at_render "profit_class")
    with (Completed tt).
  change (read_name names_bound_at_render "profit_value")
    with (Completed tt).
  change (read_name names_bound_at_render "projected_profit")
    with (Completed tt).
  cbn [run_bind]. rewrite current_roas_unbound. reflexivity.
Qed.

(** C7.  The script never builds the threshold table.  On no input does
    the [try] block complete: either one of the six calculations raises,
    or the profit paragraph reads [current_roas] before any statement has
    assigned it.  On every valid input the page therefore shows an
    unexpected error, the [NameError], and the loop over the six levels is
    not reached. *)
Theorem threshold_table_never_built (i : inputs) :
  (forall r, try_block i <> Completed r)
  /\ (forall r, run_page i <> Results r)
  /\ (valid_inputs i ->
      run_page i = UnexpectedError (NameError "current_roas")).
Proof.
  assert (Hstop : forall r, try_block i <> Completed r).
  { intros r. destruct (current_values i) as [o | e] eqn:E.
    - rewrite (try_block_stops i o E). discriminate.
    - unfold try_block. rewrite E. discriminate. }
  split; [exact Hstop |]. split.
  - intros r. unfold run_page.
    destruct (try_block i) as [r' | e] eqn:E.
    + exfalso. exact (Hstop r' eq_refl).
    + destruct e as [[msg |] | name]; discriminate.
  - intros Hvalid. unfold run_page.
    rewrite (try_block_stops i _ (current_values_ok i Hvalid)).
    reflexivity.
Qed.

Lemma threshold_table_never_built_witness :
  (forall r, try_block scenario <> Completed r)
  /\ (forall r, run_page scenario <> Results r)
  /\ run_page scenario = UnexpectedError (NameError "current_roas").
Proof.
  destruct (threshold_table_never_built scenario) as (H1 & H2 & H3).
  split; [exact H1 |]. split; [exact H2 |].
  apply H3. unfold valid_inputs. cbn. repeat split; discriminate.
Defined.

(** *** [calculate_threshold_metrics] *)

(** X8.  [calculate_threshold_metrics] checks the attendance level, the
    capacity and the number of events, and nothing else.  When the level
    is between 0 and 100 and the other two are not negative it returns the
    pair of break-even metrics at that level, whatever the price and the
    costs are; otherwise it raises [ValueError]. *)
Theorem threshold_metrics_checks (level avg cap epm tfc ec : Q) :
  (0 <= level <= 100 -> 0 <= cap -> 0 <= epm ->
     exists roas cpp,
       calculate_threshold_metrics level avg cap epm tfc ec = Ok (roas, cpp)
       /\ calculate_breakeven_roas tfc ec epm
            (avg * cap * (level / 100) * epm) = Ok roas
       /\ calculate_breakeven_cpp tfc ec epm cap level = Ok cpp)
  /\ (~ 0 <= level <= 100 \/ cap < 0 \/ epm < 0 ->
      exists msg,
        calculate_threshold_metrics level avg cap epm tfc ec
        = Raise (ValueError msg)).
Proof.
  split.
  - intros Hlevel Hcap Hepm.
    unfold calculate_threshold_metrics.
    rewrite projected_revenue_ok by assumption. cbn [bind].
    destruct (breakeven_roas_total tfc ec epm
                (avg * cap * (level / 100) * epm)) as [roas Hroas].
    destruct (breakeven_cpp_total tfc ec epm cap level) as [cpp Hcpp].
    rewrite Hroas, Hcpp. cbn [bind].
    exists roas, cpp. split; [reflexivity |]. split; reflexivity.
  - intros Hbad. unfold calculate_threshold_metrics,
      calculate_projected_revenue.
    destruct (negb (Qle_bool 0 level && Qle_bool level 100)) eqn:Elevel;
      [eexists; reflexivity |].
    destruct (Qlt_bool cap 0) eqn:Ecap; [eexists; reflexivity |].
    destruct (Qlt_bool epm 0) eqn:Eepm; [eexists; reflexivity |].
    apply percentage_guard in Elevel.
    apply Qlt_bool_false_iff in Ecap, Eepm. exfalso.
    destruct Hbad as [H | [H | H]]; [exact (H Elevel) | lra | lra].
Qed.

Lemma threshold_metrics_checks_witness :
  (exists roas cpp,
     calculate_threshold_metrics 40 31.25 200 1 5000 (-6000)
     = Ok (roas, cpp)
     /\ calculate_breakeven_roas 5000 (-6000) 1
          (31.25 * 200 * (40 / 100) * 1) = Ok roas
     /\ calculate_breakeven_cpp 5000 (-6000) 1 200 40 = Ok cpp)
  /\ exists msg,
       calculate_threshold_metrics 40 31.25 200 (-1) 5000 1000
       = Raise (ValueError msg).
Proof.
  split.
  - apply (proj1 (threshold_metrics_checks 40 31.25 200 1 5000 (-6000)));
      try split; discriminate.
  - apply (proj2 (threshold_metrics_checks 40 31.25 200 (-1) 5000 1000)).
    right. right. reflexivity.
Defined.

(** ** The session state *)

(** A loop of assignments [state[key] = value] over a dict leaves the
    dict's entries on top of the old ones. *)
Lemma fold_assign_union (d f : gmap string pyval) :
  map_fold (fun key value (g : gmap string pyval) => <[key := value]> g) f d
  = d ∪ f.
Proof.
  apply (map_fold_weak_ind (fun r m => r = m ∪ f)).
  - symmetry. apply (left_id_L ∅ (∪)).
  - intros key value m r _ ->. apply insert_union_l.
Qed.

(** A loop that assigns only under missing keys leaves the old entries on
    top of the dict's. *)
Lemma fold_missing_union (d f : gmap string pyval) :
  map_fold (fun key value (g : gmap string pyval) =>
              if decide (is_Some (g !! key)) then g else <[key := value]> g)
           f d
  = f ∪ d.
Proof.
  apply (map_fold_weak_ind (fun r m => r = f ∪ m)).
  - symmetry. apply (right_id_L ∅ (∪)).
  - intros key value m r Hm ->.
    destruct (decide (is_Some ((f ∪ m) !! key))) as [Hsome | Hnone].
    + apply map_eq. intros k. rewrite !lookup_union.
      destruct (decide (key = k)) as [<- | Hne].
      * rewrite lookup_union, Hm in Hsome.
        destruct (f !! key) eqn:Ef; [| destruct Hsome; discriminate].
        rewrite lookup_insert_eq, Hm. reflexivity.
      * rewrite lookup_insert_ne by exact Hne. reflexivity.
    + apply insert_union_r.
      rewrite lookup_union, Hm in Hnone.
      destruct (f !! key) eqn:Ef; [| reflexivity].
      exfalso. apply Hnone. eexists. reflexivity.
Qed.

Lemma read_fields_lookup (keys : list string) (f : gmap string pyval)
    (d : pydict) :
  read_fields keys f = Some d ->
  forall k, d !! k = if decide (k ∈ keys) then f !! k else None.
Proof.
  revert d. induction keys as [| key rest IH]; intros d; cbn [read_fields].
  - intros [= <-] k. rewrite lookup_empty.
    destruct (decide (k ∈ [])) as [Hin | _]; [| reflexivity].
    apply elem_of_nil in Hin. contradiction.
  - destruct (f !! key) as [value |] eqn:Ekey; [| discriminate].
    destruct (read_fields rest f) as [d' |]; [| discriminate].
    intros [= <-] k. specialize (IH d' eq_refl k).
    destruct (decide (key = k)) as [<- | Hne].
    + rewrite lookup_insert_eq.
      rewrite decide_True by (apply list_elem_of_here). congruence.
    + rewrite lookup_insert_ne by exact Hne. rewrite IH.
      destruct (decide (k ∈ rest)) as [Hin | Hout].
      * rewrite decide_True by (apply list_elem_of_further; exact Hin).
        reflexivity.
      * rewrite decide_False; [reflexivity |].
        intros Hin. apply elem_of_cons in Hin as [-> | Hin]; tauto.
Qed.

Lemma read_fields_is_Some (keys : list string) (f : gmap string pyval) :
  (forall k, k ∈ keys -> is_Some (f !! k)) ->
  is_Some (read_fields keys f).
Proof.
  induction keys as [| key rest IH]; intros Hall; cbn [read_fields].
  - eexists. reflexivity.
  - destruct (Hall key (list_elem_of_here _ _)) as [value ->].
    destruct IH as [d ->];
      [intros k Hk; apply Hall, list_elem_of_further, Hk |].
    eexists. reflexivity.
Qed.

Lemma read_fields_None (keys : list string) (f : gmap string pyval)
    (key : string) :
  key ∈ keys -> f !! key = None -> read_fields keys f = None.
Proof.
  intros Hin Hmissing.
  destruct (read_fields keys f) as [d |] eqn:E; [| reflexivity].
  pose proof (read_fields_lookup keys f d E) as Hd. exfalso.
  revert d E Hd. induction keys as [| key' rest IH]; intros d E Hd.
  - apply elem_of_nil in Hin. contradiction.
  - cbn [read_fields] in E.
    destruct (f !! key') as [value |] eqn:Ekey; [| discriminate].
    destruct (read_fields rest f) as [d' |] eqn:Erest; [| discriminate].
    apply elem_of_cons in Hin as [-> | Hin]; [congruence |].
    exact (IH Hin d' eq_refl (read_fields_lookup rest f d' Erest)).
Qed.

(** A new object changes no saved scenario. *)
Lemma stored_new_dict (d : pydict) (st : session_state) :
  well_formed st -> stored (new_dict d st).2 = stored st.
Proof.
  intros Hwf. unfold new_dict, stored. cbn [snd heap scenarios].
  apply map_eq. intros name. rewrite !lookup_omap.
  destruct (scenarios st !! name) as [r |] eqn:Hname; [| reflexivity].
  cbn. apply lookup_insert_ne. intros <-.
  apply Hwf, elem_of_dom in Hname.
  exact (is_fresh (dom (heap st)) Hname).
Qed.

Lemma well_formed_new_dict (d : pydict) (st : session_state) :
  well_formed st -> well_formed (new_dict d st).2.
Proof.
  intros Hwf name r Hname. unfold new_dict in *. cbn [snd heap scenarios] in *.
  destruct (decide (fresh (dom (heap st)) = r)) as [<- | Hne].
  - rewrite lookup_insert_eq. eexists. reflexivity.
  - rewrite lookup_insert_ne by exact Hne. exact (Hwf name r Hname).
Qed.

Lemma well_formed_save_scenario (now name : string) (values : ref)
    (st : session_state) :
  is_Some (heap st !! values) -> well_formed st ->
  well_formed (save_scenario now name values st).2.
Proof.
  intros Hvalues Hwf. unfold save_scenario.
  destruct (scenarios st !! name) eqn:Hname; [exact Hwf |].
  cbn [snd]. intros name' r. cbn [heap scenarios].
  rewrite lookup_insert. destruct (decide (name = name')) as [_ | _].
  - intros [= <-]. apply elem_of_dom. rewrite dom_alter_L.
    apply elem_of_dom. exact Hvalues.
  - intros Hr. apply elem_of_dom. rewrite dom_alter_L.
    apply elem_of_dom. exact (Hwf name' r Hr).
Qed.

Lemma get_current_values_ok (p : page) (d : pydict) :
  read_fields input_keys (fields p) = Some d ->
  get_current_values p
  = Some ((new_dict d (store p)).1,
          {| fields := fields p; store := (new_dict d (store p)).2 |}).
Proof. intros Hd. unfold get_current_values. rewrite Hd. reflexivity. Qed.

(** X9.  The Save button.  With all eleven input fields in the session state
    and the name not taken, it returns [True] and adds under that name a
    dict holding exactly these fields with their present values and the
    time stamp; the inputs and the scenarios saved before are unchanged.
    With the name taken it returns [False] and the saved scenarios are as
    before. *)
Theorem save_current_values_spec (now name : string) (p : page) :
  well_formed (store p) ->
  (forall key, key ∈ input_keys -> is_Some (fields p !! key)) ->
  (scenarios (store p) !! name = None ->
     exists p' d,
       save_current_values now name p = Some (true, p')
       /\ fields p' = fields p
       /\ stored (store p') = <[name := d]> (stored (store p))
       /\ d !! "saved_at" = Some (PyStr now)
       /\ (forall key, key ∈ input_keys -> d !! key = fields p !! key)
       /\ (forall key, key ∉ input_keys -> key <> "saved_at" ->
             d !! key = None)
       /\ well_formed (store p'))
  /\ (is_Some (scenarios (store p) !! name) ->
      exists p',
        save_current_values now name p = Some (false, p')
        /\ fields p' = fields p
        /\ stored (store p') = stored (store p)
        /\ well_formed (store p')).
Proof.
  intros Hwf Hkeys.
  destruct (read_fields_is_Some input_keys (fields p) Hkeys) as [d0 Hd0].
  pose proof (read_fields_lookup _ _ _ Hd0) as Hlookup.
  destruct (new_dict_unshared d0 (store p) Hwf) as [Hobj Hun].
  pose proof (stored_new_dict d0 (store p) Hwf) as Hsame.
  pose proof (well_formed_new_dict d0 (store p) Hwf) as Hwf1.
  unfold save_current_values. rewrite (get_current_values_ok p d0 Hd0).
  cbn [fields store].
  set (r := (new_dict d0 (store p)).1) in *.
  set (st1 := (new_dict d0 (store p)).2) in *.
  assert (Hnames : scenarios st1 = scenarios (store p)) by reflexivity.
  split.
  - intros Hfree. rewrite <- Hnames in Hfree.
    pose proof (save_scenario_free now name r st1 d0 Hfree Hobj Hun) as Hst.
    pose proof (well_formed_save_scenario now name r st1
                  (ex_intro _ d0 Hobj) Hwf1) as Hwf2.
    unfold save_scenario in *. rewrite Hfree in *. cbn [snd] in Hst, Hwf2.
    do 2 eexists. split; [reflexivity |]. cbn [fields store].
    split; [reflexivity |]. split; [rewrite Hst, Hsame; reflexivity |].
    split; [apply lookup_insert_eq |]. split; [| split; [| exact Hwf2]].
    + intros key Hkey. rewrite lookup_insert_ne, Hlookup, decide_True;
        [reflexivity | exact Hkey |].
      intros <-. vm_compute in Hkey.
      repeat (apply elem_of_cons in Hkey as [Hkey | Hkey];
              [discriminate |]).
      apply elem_of_nil in Hkey. exact Hkey.
    + intros key Hkey Hne. rewrite lookup_insert_ne by congruence.
      rewrite Hlookup, decide_False by exact Hkey. reflexivity.
  - intros Htaken. rewrite <- Hnames in Htaken.
    rewrite (save_scenario_taken now name r st1 Htaken).
    eexists. split; [reflexivity |]. cbn [fields store].
    split; [reflexivity |]. split; [exact Hsame | exact Hwf1].
Qed.

Lemma scenario_page_well_formed : well_formed (store scenario_page).
Proof.
  intros name r Hname. cbn in Hname.
  apply lookup_singleton_Some in Hname as [_ <-].
  eexists. reflexivity.
Qed.

Lemma scenario_page_complete :
  forall key, key ∈ input_keys -> is_Some (fields scenario_page !! key).
Proof.
  intros key Hkey. unfold input_keys in Hkey.
  repeat (apply elem_of_cons in Hkey as [-> | Hkey];
          [eexists; reflexivity |]).
  apply elem_of_nil in Hkey. contradiction.
Qed.

Lemma save_current_values_spec_witness :
  (exists p' d,
     save_current_values "2024-05-02 09:30:00" "second" scenario_page
     = Some (true, p')
     /\ fields p' = fields scenario_page
     /\ stored (store p') = <["second" := d]> (stored (store scenario_page))
     /\ d !! "saved_at" = Some (PyStr "2024-05-02 09:30:00")
     /\ (forall key, key ∈ input_keys ->
           d !! key = fields scenario_page !! key)
     /\ (forall key, key ∉ input_keys -> key <> "saved_at" ->
           d !! key = None)
     /\ well_formed (store p'))
  /\ exists p',
       save_current_values "2024-05-02 09:30:00" "base" scenario_page
       = Some (false, p')
       /\ fields p' = fields scenario_page
       /\ stored (store p') = stored (store scenario_page)
       /\ well_formed (store p').
Proof.
  split.
  - apply (proj1 (save_current_values_spec "2024-05-02 09:30:00" "second"
                    scenario_page scenario_page_well_formed
                    scenario_page_complete)).
    reflexivity.
  - apply (proj2 (save_current_values_spec "2024-05-02 09:30:00" "base"
                    scenario_page scenario_page_well_formed
                    scenario_page_complete)).
    eexists. reflexivity.
Defined.

(** X10.  The Save button needs all eleven input fields: with one of them
    missing from the session state nothing is saved. *)
Theorem save_current_values_missing_field (now name key : string)
    (p : page) :
  key ∈ input_keys -> fields p !! key = None ->
  save_current_values now name p = None.
Proof.
  intros Hkey Hmissing. unfold save_current_values, get_current_values.
  rewrite (read_fields_None input_keys (fields p) key Hkey Hmissing).
  reflexivity.
Qed.

Lemma save_current_values_missing_field_witness :
  save_current_values "2024-05-02 09:30:00" "second"
    {| fields := delete "ad_spend" scenario_fields; store := one_saved |}
  = None.
Proof.
  apply (save_current_values_missing_field _ _ "ad_spend").
  - unfold input_keys. do 8 apply list_elem_of_further.
    apply list_elem_of_here.
  - apply lookup_delete_eq.
Defined.

Lemma load_scenario_ok (selected : string) (p : page) (r : ref)
    (values : pydict) :
  scenarios (store p) !! selected = Some r ->
  heap (store p) !! r = Some values ->
  load_scenario selected p
  = Some {| fields := delete "saved_at" values ∪ fields p;
            store := {| heap := <[r := delete "saved_at" values]>
                                  (heap (store p));
                        scenarios := scenarios (store p) |} |}.
Proof.
  intros Hname Hobj. unfold load_scenario. rewrite Hname, Hobj.
  rewrite fold_assign_union. reflexivity.
Qed.



(** A name that is not among the saved scenarios loads nothing. *)
Lemma load_scenario_unknown (selected : string) (p : page) :
  scenarios (store p) !! selected = None -> load_scenario selected p = None.
Proof. intros Hname. unfold load_scenario. rewrite Hname. reflexivity. Qed.



(** What a successful save leaves behind. *)
Lemma save_current_values_true_inv (now name : string) (p p1 : page) :
  save_current_values now name p = Some (true, p1) ->
  exists d r,
    read_fields input_keys (fields p) = Some d
    /\ scenarios (store p) !! name = None
    /\ fields p1 = fields p
    /\ scenarios (store p1) = <[name := r]> (scenarios (store p))
    /\ heap (store p1) !! r = Some (<["saved_at" := PyStr now]> d).
Proof.
  unfold save_current_values, get_current_values.
  destruct (read_fields input_keys (fields p)) as [d |] eqn:Hd;
    [| discriminate].
  unfold new_dict, save_scenario. cbn [fields store heap scenarios].
  destruct (scenarios (store p) !! name) eqn:Hname; [discriminate |].
  intros [= <-]. exists d, (fresh (dom (heap (store p)))).
  cbn [fields store heap scenarios].
  split; [reflexivity |]. split; [reflexivity |]. split; [reflexivity |].
  split; [reflexivity |].
  rewrite lookup_alter_eq, lookup_insert_eq. reflexivity.
Qed.



(** X13.  Loading the same scenario a second time changes nothing: the first
    load already removed the time stamp and copied the entries. *)
Theorem load_scenario_twice (selected : string) (p p1 : page) :
  load_scenario selected p = Some p1 ->
  load_scenario selected p1 = Some p1.
Proof.
  unfold load_scenario at 1.
  destruct (scenarios (store p) !! selected) as [r |] eqn:Hname;
    [| discriminate].
  destruct (heap (store p) !! r) as [values |] eqn:Hobj; [| discriminate].
  rewrite fold_assign_union. intros [= <-].
  rewrite (load_scenario_ok selected _ r (delete "saved_at" values));
    cbn [fields store heap scenarios];
    [| exact Hname | apply lookup_insert_eq].
  rewrite delete_delete_eq, insert_insert_eq.
  rewrite (assoc_L (∪)), (idemp_L (∪)). reflexivity.
Qed.

Lemma load_scenario_twice_witness :
  exists p1,
    load_scenario "base" scenario_page = Some p1
    /\ load_scenario "base" p1 = Some p1.
Proof.
  assert (H : { p1 | load_scenario "base" scenario_page = Some p1 })
    by (eexists; vm_compute; reflexivity).
  destruct H as [p1 Hp1]. exists p1.
  split; [exact Hp1 |].
  exact (load_scenario_twice "base" scenario_page p1 Hp1).
Defined.

Lemma input_defaults_outside (key : string) :
  key ∉ input_keys -> input_defaults !! key = None.
Proof.
  intros Hkey. apply not_elem_of_list_to_map_1. exact Hkey.
Qed.

Lemma input_defaults_inside (key : string) :
  key ∈ input_keys -> is_Some (input_defaults !! key).
Proof.
  intros Hkey. unfold input_keys in Hkey.
  repeat (apply elem_of_cons in Hkey as [-> | Hkey];
          [eexists; reflexivity |]).
  apply elem_of_nil in Hkey. contradiction.
Qed.

(** What [get_current_values] reads once every input field holds its
    default. *)
Lemma read_fields_defaults (f : gmap string pyval) :
  (forall key, key ∈ input_keys -> f !! key = input_defaults !! key) ->
  read_fields input_keys f = Some input_defaults.
Proof.
  intros Hf.
  destruct (read_fields_is_Some input_keys f) as [d Hd].
  { intros key Hkey. rewrite (Hf key Hkey).
    apply input_defaults_inside, Hkey. }
  rewrite Hd. f_equal. apply map_eq. intros key.
  rewrite (read_fields_lookup _ _ _ Hd).
  destruct (decide (key ∈ input_keys)) as [Hin | Hout].
  - apply Hf, Hin.
  - symmetry. apply input_defaults_outside, Hout.
Qed.

(** X14.  [reset_inputs] puts every one of the eleven input fields back to its
    default and leaves all else alone: the other entries of the session
    state and the saved scenarios.  Resetting twice is resetting once, and
    what the Save button would read after a reset is the dict of
    defaults. *)
Theorem reset_inputs_spec (p : page) :
  (forall key, key ∈ input_keys ->
     fields (reset_inputs p) !! key = input_defaults !! key)
  /\ (forall key, key ∉ input_keys ->
      fields (reset_inputs p) !! key = fields p !! key)
  /\ store (reset_inputs p) = store p
  /\ reset_inputs (reset_inputs p) = reset_inputs p
  /\ read_fields input_keys (fields (reset_inputs p)) = Some input_defaults.
Proof.
  assert (Hin : forall key, key ∈ input_keys ->
            fields (reset_inputs p) !! key = input_defaults !! key).
  { intros key Hkey. unfold reset_inputs. cbn [fields].
    rewrite fold_assign_union.
    destruct (input_defaults_inside key Hkey) as [value Hvalue].
    rewrite Hvalue. apply lookup_union_Some_raw. left. exact Hvalue. }
  split; [exact Hin |]. split; [| split; [| split]].
  - intros key Hkey. unfold reset_inputs. cbn [fields].
    rewrite fold_assign_union. apply lookup_union_r.
    apply input_defaults_outside, Hkey.
  - reflexivity.
  - unfold reset_inputs. cbn [fields store]. rewrite !fold_assign_union.
    rewrite (assoc_L (∪)), (idemp_L (∪)). reflexivity.
  - apply read_fields_defaults, Hin.
Qed.

(** X15.  The loop at the top of the script keeps every entry that is already
    in the session state, gives each missing input field its default, and
    so makes sure that [get_current_values] finds all it reads; run again
    it changes nothing. *)
Theorem init_defaults_spec (p : page) :
  (forall key value, fields p !! key = Some value ->
     fields (init_defaults p) !! key = Some value)
  /\ (forall key, fields p !! key = None ->
      fields (init_defaults p) !! key = input_defaults !! key)
  /\ store (init_defaults p) = store p
  /\ init_defaults (init_defaults p) = init_defaults p
  /\ is_Some (get_current_values (init_defaults p)).
Proof.
  unfold init_defaults. cbn [fields store]. rewrite !fold_missing_union.
  split; [| split; [| split; [| split]]].
  - intros key value Hkey. apply lookup_union_Some_raw. left. exact Hkey.
  - intros key Hkey. apply lookup_union_r. exact Hkey.
  - reflexivity.
  - rewrite <- (assoc_L (∪)), (idemp_L (∪)). reflexivity.
  - unfold get_current_values. cbn [fields].
    destruct (read_fields_is_Some input_keys (fields p ∪ input_defaults))
      as [d ->]; [| eexists; reflexivity].
    intros key Hkey. rewrite lookup_union.
    destruct (input_defaults_inside key Hkey) as [value ->].
    destruct (fields p !! key); eexists; reflexivity.
Qed.

Lemma well_formed_load_scenario (selected : string) (p p' : page) :
  well_formed (store p) -> load_scenario selected p = Some p' ->
  well_formed (store p') /\ scenarios (store p') = scenarios (store p).
Proof.
  intros Hwf. unfold load_scenario.
  destruct (scenarios (store p) !! selected) as [r |]; [| discriminate].
  destruct (heap (store p) !! r) as [values |]; [| discriminate].
  intros [= <-]. cbn [store scenarios heap]. split; [| reflexivity].
  intros name r' Hname. cbn [heap scenarios] in *.
  rewrite lookup_insert. destruct (decide (r = r'));
    [eexists; reflexivity | exact (Hwf name r' Hname)].
Qed.

Lemma save_current_values_inv (now name : string) (saved : bool)
    (p p' : page) :
  save_current_values now name p = Some (saved, p') ->
  exists d,
    read_fields input_keys (fields p) = Some d
    /\ store p'
       = (save_scenario now name (new_dict d (store p)).1
            (new_dict d (store p)).2).2.
Proof.
  unfold save_current_values, get_current_values.
  destruct (read_fields input_keys (fields p)) as [d |]; [| discriminate].
  unfold new_dict. cbv zeta. cbn [fst snd fields store].
  destruct (save_scenario now name _ _) as [b st'] eqn:Hsave.
  intros H. injection H as <- <-. exists d. split; [reflexivity |].
  cbn [store]. rewrite Hsave. reflexivity.
Qed.

(** X16.  Saving and loading keep the scenario store sound and never drop a
    saved scenario: afterwards every saved name still refers to a live
    dict, and every name saved before is still saved. *)
Theorem store_invariant (p : page) :
  well_formed (store p) ->
  (forall now name saved p',
     save_current_values now name p = Some (saved, p') ->
     well_formed (store p')
     /\ forall other, is_Some (scenarios (store p) !! other) ->
          is_Some (scenarios (store p') !! other))
  /\ (forall selected p',
        load_scenario selected p = Some p' ->
        well_formed (store p')
        /\ scenarios (store p') = scenarios (store p)).
Proof.
  intros Hwf. split.
  - intros now name saved p' Hsave.
    destruct (save_current_values_inv now name saved p p' Hsave)
      as (d & _ & ->).
    split.
    + apply well_formed_save_scenario;
        [| apply well_formed_new_dict; exact Hwf].
      destruct (new_dict_unshared d (store p) Hwf) as [Hobj _].
      eexists. exact Hobj.
    + intros other Hother. unfold save_scenario, new_dict.
      cbn [fst snd scenarios].
      destruct (scenarios (store p) !! name) eqn:Hname; cbn [snd scenarios];
        [exact Hother |].
      rewrite lookup_insert_ne; [exact Hother |].
      intros <-. rewrite Hname in Hother. destruct Hother; discriminate.
  - intros selected p' Hload.
    exact (well_formed_load_scenario selected p p' Hwf Hload).
Qed.

Lemma store_invariant_witness :
  (forall now name saved p',
     save_current_values now name scenario_page = Some (saved, p') ->
     well_formed (store p')
     /\ forall other, is_Some (scenarios (store scenario_page) !! other) ->
          is_Some (scenarios (store p') !! other))
  /\ (forall selected p',
        load_scenario selected scenario_page = Some p' ->
        well_formed (store p')
        /\ scenarios (store p') = scenarios (store scenario_page)).
Proof.
  apply (store_invariant scenario_page scenario_page_well_formed).
Defined.

(** X17.  A name can be used once: after a scenario was saved under it, saving
    again under the same name, whatever the inputs and the time, returns
    [False] and leaves the saved scenarios as they are. *)
Theorem save_twice_rejected (now now' name : string) (p p1 p2 : page) :
  well_formed (store p) ->
  save_current_values now name p = Some (true, p1) ->
  store p2 = store p1 ->
  (forall key, key ∈ input_keys -> is_Some (fields p2 !! key)) ->
  exists p3,
    save_current_values now' name p2 = Some (false, p3)
    /\ stored (store p3) = stored (store p1).
Proof.
  intros Hwf Hsave Hstore Hkeys.
  destruct (save_current_values_true_inv now name p p1 Hsave)
    as (_ & r & _ & _ & _ & Hnames & _).
  assert (Hwf1 : well_formed (store p1)).
  { destruct (save_current_values_inv now name true p p1 Hsave)
      as (d & _ & ->).
    apply well_formed_save_scenario;
      [| apply well_formed_new_dict; exact Hwf].
    destruct (new_dict_unshared d (store p) Hwf) as [Hobj _].
    eexists. exact Hobj. }
  destruct (read_fields_is_Some input_keys (fields p2) Hkeys) as [d2 Hd2].
  unfold save_current_values. rewrite (get_current_values_ok p2 d2 Hd2).
  cbn [fields store]. rewrite Hstore.
  rewrite save_scenario_taken.
  - eexists. split; [reflexivity |]. cbn [store].
    apply stored_new_dict, Hwf1.
  - unfold new_dict. cbn [snd scenarios]. rewrite Hnames.
    rewrite lookup_insert_eq. eexists. reflexivity.
Qed.

Lemma save_twice_rejected_witness :
  exists p1 p3,
    save_current_values "2024-05-02 09:30:00" "second" scenario_page
    = Some (true, p1)
    /\ save_current_values "2024-05-03 18:00:00" "second"
         {| fields := <["ad_spend" := PyNum 300]> scenario_fields;
            store := store p1 |} = Some (false, p3)
    /\ stored (store p3) = stored (store p1).
Proof.
  assert (H : { p1 | save_current_values "2024-05-02 09:30:00" "second"
                       scenario_page = Some (true, p1) })
    by (eexists; vm_compute; reflexivity).
  destruct H as [p1 Hp1]. exists p1.
  destruct (save_twice_rejected "2024-05-02 09:30:00" "2024-05-03 18:00:00"
              "second" scenario_page p1
              {| fields := <["ad_spend" := PyNum 300]> scenario_fields;
                 store := store p1 |}
              scenario_page_well_formed Hp1 eq_refl) as (p3 & Hp3).
  - intros key Hkey. cbn [fields].
    destruct (decide (key = "ad_spend")) as [-> | Hne].
    + rewrite lookup_insert_eq. eexists. reflexivity.
    + rewrite lookup_insert_ne by congruence.
      exact (scenario_page_complete key Hkey).
  - exists p3. split; [exact Hp1 | exact Hp3].
Defined.

(** ** Further properties of [streamlit_app.py] *)

(** *** Rounding to two decimals *)

Lemma round_half_even_bounds (x : Q) :
  inject_Z (StreamlitApp.round_half_even x) - (1 # 2) <= x
  /\ x <= inject_Z (StreamlitApp.round_half_even x) + (1 # 2).
Proof.
  unfold StreamlitApp.round_half_even.
  pose proof (Qfloor_le x) as Hlow. pose proof (Qlt_floor x) as Hhigh.
  rewrite inject_Z_plus in Hhigh. change (inject_Z 1) with 1 in Hhigh.
  destruct (Qcompare (x - inject_Z (Qfloor x)) (1 # 2)) eqn:E.
  - apply Qeq_alt in E.
    destruct (Z.even (Qfloor x));
      [| rewrite inject_Z_plus; change (inject_Z 1) with 1]; split; lra.
  - apply Qlt_alt in E. split; lra.
  - apply Qgt_alt in E. rewrite inject_Z_plus. change (inject_Z 1) with 1.
    split; lra.
Qed.

Lemma round_half_even_proper (x y : Q) :
  x == y -> StreamlitApp.round_half_even x = StreamlitApp.round_half_even y.
Proof.
  intros E. unfold StreamlitApp.round_half_even.
  rewrite (Qfloor_comp x y E).
  assert (Ec : Qcompare (x - inject_Z (Qfloor y)) (1 # 2)
               = Qcompare (y - inject_Z (Qfloor y)) (1 # 2))
    by (apply Qcompare_comp; [rewrite E |]; reflexivity).
  rewrite Ec. reflexivity.
Qed.

Lemma round_half_even_monotone (x y : Q) :
  x <= y ->
  (StreamlitApp.round_half_even x <= StreamlitApp.round_half_even y)%Z.
Proof.
  intros Hxy.
  destruct (Z_le_gt_dec (StreamlitApp.round_half_even x)
                        (StreamlitApp.round_half_even y)) as [Hle | Hgt];
    [exact Hle | exfalso].
  assert (Hstep : (StreamlitApp.round_half_even y + 1
                   <= StreamlitApp.round_half_even x)%Z)
    by (apply Z.le_succ_l, Z.gt_lt, Hgt).
  rewrite Zle_Qle, inject_Z_plus in Hstep.
  change (inject_Z 1) with 1 in Hstep.
  destruct (round_half_even_bounds x) as [Hx _].
  destruct (round_half_even_bounds y) as [_ Hy].
  assert (E : x == y) by lra.
  apply Z.gt_lt, Z.lt_neq in Hgt. apply Hgt. symmetry.
  apply round_half_even_proper, E.
Qed.

Lemma round2_monotone (x y : Q) :
  x <= y -> StreamlitApp.round2 x <= StreamlitApp.round2 y.
Proof.
  intros Hxy. unfold StreamlitApp.round2.
  assert (H : (StreamlitApp.round_half_even (x * 100)
               <= StreamlitApp.round_half_even (y * 100))%Z)
    by (apply round_half_even_monotone; lra).
  rewrite Zle_Qle in H. percent. lra.
Qed.

(** *** The functions *)

Lemma streamlit_breakeven_cpp_eq (tfc ec epm att cap : Q) :
  StreamlitApp.calculate_breakeven_cpp tfc ec epm att cap
  = Ok (if Qeq_bool att 0 || Qeq_bool cap 0 then 0
        else StreamlitApp.round2 ((tfc + ec * epm) / (cap * att / 100))).
Proof.
  unfold StreamlitApp.calculate_breakeven_cpp.
  destruct (Qeq_bool att 0 || Qeq_bool cap 0) eqn:E; [reflexivity |].
  apply orb_false_iff in E as [Hatt Hcap].
  apply Qeq_bool_neq in Hatt, Hcap.
  rewrite pydiv_100. cbn [bind]. rewrite pydiv_ok; [reflexivity |].
  intros Hz. percent.
  assert (Hprod : cap * att == 0).
  { assert (E : cap * att == cap * att * (1 # 100) * 100) by ring.
    rewrite E, Hz. ring. }
  apply Qmult_integral in Hprod. tauto.
Qed.

Lemma streamlit_breakeven_roas_eq (fc ec epm : Q) :
  StreamlitApp.calculate_breakeven_roas fc ec epm
  = Ok (if Qeq_bool (fc * epm) 0 then 0
        else StreamlitApp.round2 ((fc * epm + ec * epm) / (fc * epm))).
Proof.
  unfold StreamlitApp.calculate_breakeven_roas.
  destruct (Qeq_bool (fc * epm) 0) eqn:E; [reflexivity |].
  apply Qeq_bool_neq in E. rewrite pydiv_ok by exact E. reflexivity.
Qed.

(** X19.  Of the six functions of [streamlit_app.py] that divide, five
    return a number whatever their arguments: each divides by the literal
    100 only, or by the very value its check has just compared with zero.
    The sixth, [calculate_breakeven_cpp], divides by a value it computes
    after its check and is not among them. *)
Theorem streamlit_no_zero_division (a b c d : Q) :
  (exists v, StreamlitApp.calculate_average_ticket_price a b c d = Ok v)
  /\ (exists v, StreamlitApp.calculate_projected_revenue a b c = Ok v)
  /\ (exists v, StreamlitApp.calculate_breakeven_roas a b c = Ok v)
  /\ (exists v, StreamlitApp.calculate_current_roas a b = Ok v)
  /\ (exists v, StreamlitApp.calculate_current_cpp a b = Ok v).
Proof.
  split; [| split; [| split; [| split]]].
  - unfold StreamlitApp.calculate_average_ticket_price.
    destruct (Qeq_bool (c + d) 0); eexists; reflexivity.
  - eexists. reflexivity.
  - eexists. apply streamlit_breakeven_roas_eq.
  - unfold StreamlitApp.calculate_current_roas.
    destruct (Qeq_bool a 0) eqn:E; [eexists; reflexivity |].
    apply Qeq_bool_neq in E. rewrite pydiv_ok by exact E.
    eexists; reflexivity.
  - unfold StreamlitApp.calculate_current_cpp.
    destruct (Qeq_bool b 0) eqn:E; [eexists; reflexivity |].
    apply Qeq_bool_neq in E. rewrite pydiv_ok by exact E.
    eexists; reflexivity.
Qed.

Lemma ratio_at_least_one (x costs : Q) :
  0 < costs -> costs <= x -> 1 <= x / costs.
Proof.
  intros Hpos Hc. apply Qle_shift_div_l; [exact Hpos | lra].
Qed.

(** X20.  The break-even ROAS of [streamlit_app.py] is the number 0 when
    fixed costs times events is zero.  When that product is positive and
    the event costs of the month are not negative, it is at least 1. *)
Theorem streamlit_breakeven_roas_range (fc ec epm : Q) :
  (fc * epm == 0 -> StreamlitApp.calculate_breakeven_roas fc ec epm = Ok 0)
  /\ (0 < fc * epm -> 0 <= ec * epm ->
      exists v,
        StreamlitApp.calculate_breakeven_roas fc ec epm = Ok v /\ 1 <= v).
Proof.
  rewrite streamlit_breakeven_roas_eq. split.
  - intros Hz. apply Qeq_bool_iff in Hz. rewrite Hz. reflexivity.
  - intros Hpos Hec.
    destruct (Qeq_bool (fc * epm) 0) eqn:E;
      [apply Qeq_bool_iff in E; lra |].
    eexists. split; [reflexivity |].
    apply (Qle_trans _ (StreamlitApp.round2 1)); [discriminate |].
    apply round2_monotone, ratio_at_least_one; [exact Hpos | lra].
Qed.

Lemma streamlit_breakeven_roas_range_witness :
  StreamlitApp.calculate_breakeven_roas 0 1000 4 = Ok 0
  /\ exists v,
       StreamlitApp.calculate_breakeven_roas 5000 1000 4 = Ok v /\ 1 <= v.
Proof.
  split.
  - apply (proj1 (streamlit_breakeven_roas_range 0 1000 4)). reflexivity.
  - apply (proj2 (streamlit_breakeven_roas_range 5000 1000 4));
      [reflexivity | discriminate].
Defined.

(** X22.  The revenue of [app.py] is that of [streamlit_app.py], which leaves
    the number of events out, times the number of events. *)
Theorem revenue_variants_differ_by_events (avg cap att epm : Q) :
  0 <= att <= 100 -> 0 <= cap -> 0 <= epm ->
  exists rev rev',
    calculate_projected_revenue avg cap att epm = Ok rev
    /\ StreamlitApp.calculate_projected_revenue avg cap att = Ok rev'
    /\ rev == rev' * epm.
Proof.
  intros Hatt Hcap Hepm. rewrite projected_revenue_ok by assumption.
  unfold StreamlitApp.calculate_projected_revenue. rewrite pydiv_100.
  cbn [bind]. do 2 eexists. split; [reflexivity | split; reflexivity].
Qed.

Lemma revenue_variants_differ_by_events_witness :
  exists rev rev',
    calculate_projected_revenue 31.25 200 40 4 = Ok rev
    /\ StreamlitApp.calculate_projected_revenue 31.25 200 40 = Ok rev'
    /\ rev == rev' * 4.
Proof.
  apply (revenue_variants_differ_by_events 31.25 200 40 4);
    try split; discriminate.
Defined.

Lemma map_result_ok {A B : Type} (f : A -> result B) (g : A -> B)
    (l : list A) :
  (forall x, f x = Ok (g x)) -> map_result f l = Ok (map g l).
Proof.
  intros Hf. induction l as [| x rest IH]; cbn [map_result map];
    [reflexivity |].
  rewrite Hf, IH. reflexivity.
Qed.

Lemma sorted_map_antitone (g : Q -> Q) (l : list Q) :
  (forall x y, 0 < x -> x <= y -> g y <= g x) ->
  Forall (fun x => 0 < x) l -> StronglySorted Qle l ->
  StronglySorted (fun a b => b <= a) (map g l).
Proof.
  intros Hg Hpos Hsorted.
  induction Hsorted as [| x rest Hrest IH Hhead]; cbn [map];
    [constructor |].
  apply Forall_cons in Hpos as [Hx Hpos].
  constructor; [apply IH; exact Hpos |].
  apply Forall_forall. intros b Hb.
  apply list_elem_of_In, in_map_iff in Hb as (y & <- & Hy).
  apply Hg; [exact Hx |].
  rewrite Forall_forall in Hhead. apply Hhead, list_elem_of_In, Hy.
Qed.

(** X23.  The threshold table of [streamlit_app.py] repeats one break-even ROAS
    on all six rows, since that figure does not depend on the attendance;
    its break-even CPP column never rises from one row to a later one
    when costs and capacity are not negative. *)
Theorem streamlit_threshold_columns (fc tfc ec epm cap : Q) :
  0 <= tfc + ec * epm -> 0 <= cap ->
  exists v cpp_column,
    StreamlitApp.threshold_data fc tfc ec epm cap
    = Ok (repeat v 6, cpp_column)
    /\ StreamlitApp.calculate_breakeven_roas fc ec epm = Ok v
    /\ length cpp_column = 6%nat
    /\ StronglySorted (fun a b => b <= a) cpp_column.
Proof.
  intros Hcosts Hcap. unfold StreamlitApp.threshold_data.
  rewrite (map_result_ok _ _ _
             (fun _ => streamlit_breakeven_roas_eq fc ec epm)).
  cbn [bind].
  rewrite (map_result_ok _ _ _
             (fun p => streamlit_breakeven_cpp_eq tfc ec epm p cap)).
  cbn [bind]. do 2 eexists.
  split; [reflexivity |].
  split; [apply streamlit_breakeven_roas_eq |].
  split; [reflexivity |].
  apply sorted_map_antitone.
  - intros x y Hx Hxy.
    assert (Ex : Qeq_bool x 0 = false).
    { destruct (Qeq_bool x 0) eqn:E; [| reflexivity].
      apply Qeq_bool_iff in E. lra. }
    assert (Ey : Qeq_bool y 0 = false).
    { destruct (Qeq_bool y 0) eqn:E; [| reflexivity].
      apply Qeq_bool_iff in E. lra. }
    rewrite Ex, Ey. cbn [orb].
    destruct (Qeq_bool cap 0) eqn:Ecap; [apply Qle_refl |].
    apply Qeq_bool_neq in Ecap.
    apply round2_monotone, Qdiv_le_den; [exact Hcosts | |].
    + percent. assert (0 < cap * x) by (apply Qmult_lt_0_compat; lra). lra.
    + percent. assert (cap * x <= cap * y) by nra. lra.
  - unfold StreamlitApp.attendance_levels.
    repeat (constructor; [reflexivity |]). constructor.
  - unfold StreamlitApp.attendance_levels.
    repeat (constructor; [| repeat (constructor; [discriminate |]);
                            constructor]).
    constructor.
Qed.

Lemma streamlit_threshold_columns_witness :
  exists v cpp_column,
    StreamlitApp.threshold_data 5000 5000 1000 1 200
    = Ok (repeat v 6, cpp_column)
    /\ StreamlitApp.calculate_breakeven_roas 5000 1000 1 = Ok v
    /\ length cpp_column = 6%nat
    /\ StronglySorted (fun a b => b <= a) cpp_column.
Proof.
  apply (streamlit_threshold_columns 5000 5000 1000 1 200); discriminate.
Defined.

(** ** Further properties of [test_thresholds.py] *)

Lemma test_thresholds_antitone_witness :
  exists roas1 cpp1 roas2 cpp2,
    TestThresholds.threshold_at 5000 1000 200 25 50 75 40 = Ok (roas1, cpp1)
    /\ TestThresholds.threshold_at 5000 1000 200 25 50 75 50
       = Ok (roas2, cpp2)
    /\ pf_le roas2 roas1
    /\ pf_le cpp2 cpp1.
Proof.
  apply (test_thresholds_antitone 5000 1000 200 25 50 75 40 50);
    try split; discriminate.
Defined.

(** X25.  [calculate_profitability_thresholds] rejects a capacity that is not
    positive, a negative price and a sales mix outside [0, 100] with
    [ValueError]; on every other input it returns a dict with exactly the
    six keys ["40%"] to ["90%"], each holding the pair of metrics computed
    at that level, and no division in it fails. *)
Theorem profitability_thresholds_spec (fc ec cap pre post mix : Q) :
  (0 < cap -> 0 <= pre -> 0 <= post -> 0 <= mix <= 100 ->
     exists m,
       TestThresholds.calculate_profitability_thresholds
         fc ec cap pre post mix = Ok m
       /\ dom m = list_to_set ["40%"; "50%"; "60%"; "70%"; "80%"; "90%"]
       /\ forall level, level ∈ TestThresholds.attendance_levels ->
            exists entry,
              TestThresholds.threshold_at fc ec cap pre post mix
                (inject_Z level) = Ok entry
              /\ m !! (pretty level ++ "%")%string = Some entry)
  /\ (cap <= 0 \/ pre < 0 \/ post < 0 \/ mix < 0 \/ 100 < mix ->
      exists msg,
        TestThresholds.calculate_profitability_thresholds
          fc ec cap pre post mix = Raise (ValueError msg)).
Proof.
  unfold TestThresholds.calculate_profitability_thresholds. split.
  - intros Hcap Hpre Hpost Hmix.
    assert (Ecap : Qle_bool cap 0 = false).
    { destruct (Qle_bool cap 0) eqn:E; [| reflexivity].
      apply Qle_bool_iff in E. lra. }
    apply Qlt_bool_false_iff in Hpre, Hpost. apply percentage_guard in Hmix.
    rewrite Ecap. cbn [existsb]. rewrite Hpre, Hpost, Hmix. cbn [orb].
    unfold TestThresholds.attendance_levels.
    cbn [TestThresholds.thresholds_loop].
    rewrite !threshold_at_eq. cbv zeta. cbn [bind].
    eexists. split; [reflexivity |]. split.
    + rewrite !dom_insert_L, dom_empty_L.
      apply set_eq. intros key. vm_compute pretty. set_solver.
    + intros level Hlevel.
      repeat (apply elem_of_cons in Hlevel as [-> | Hlevel];
              [eexists; split; [apply threshold_at_eq |];
               vm_compute pretty; cbv zeta; simplify_map_eq; reflexivity |]).
      apply elem_of_nil in Hlevel. contradiction.
  - intros Hbad.
    destruct (Qle_bool cap 0) eqn:Ecap; [eexists; reflexivity |].
    cbn [existsb].
    destruct (Qlt_bool pre 0) eqn:Epre; [eexists; reflexivity |].
    destruct (Qlt_bool post 0) eqn:Epost; [eexists; reflexivity |].
    cbn [orb].
    destruct (negb (Qle_bool 0 mix && Qle_bool mix 100)) eqn:Emix;
      [eexists; reflexivity |].
    exfalso. apply percentage_guard in Emix.
    apply Qlt_bool_false_iff in Epre, Epost.
    assert (Hcap : 0 < cap).
    { apply Qnot_le_lt. intros H. apply Qle_bool_iff in H. congruence. }
    destruct Hbad as [H | [H | [H | [H | H]]]]; lra.
Qed.

Lemma profitability_thresholds_spec_witness :
  (exists m,
     TestThresholds.calculate_profitability_thresholds 5000 1000 200 25 50 75
     = Ok m
     /\ dom m = list_to_set ["40%"; "50%"; "60%"; "70%"; "80%"; "90%"]
     /\ forall level, level ∈ TestThresholds.attendance_levels ->
          exists entry,
            TestThresholds.threshold_at 5000 1000 200 25 50 75
              (inject_Z level) = Ok entry
            /\ m !! (pretty level ++ "%")%string = Some entry)
  /\ exists msg,
       TestThresholds.calculate_profitability_thresholds 5000 1000 0 25 50 75
       = Raise (ValueError msg).
Proof.
  split.
  - apply (proj1 (profitability_thresholds_spec 5000 1000 200 25 50 75));
      try split; (reflexivity || discriminate).
  - apply (proj2 (profitability_thresholds_spec 5000 1000 0 25 50 75)).
    left. discriminate.
Defined.
